(** * neo4jAuraUtils: pausing and resuming a Neo4j Aura instance

    A shallow embedding of [neo4jAuraUtils.py].  The Python functions talk to
    the Aura REST API through [requests], read the wall clock, print to the
    console and mutate one dictionary (the instance info) in place.  Here

    - Python dictionaries live in a heap of objects addressed by reference,
      so that an update made by a callee is seen by the caller;
    - the outside world (replies of the API, readings of the clock, the
      files on disk) is an environment of oracles that the code consumes in
      order;
    - every network request, console write and sleep is appended to a trace;
    - a Python exception ends the run with [Raised]; the polling loop is run
      on fuel and [Timeout] says that the fuel was used up. *)

From Stdlib Require Import ZArith String Ascii List Lia.
From stdpp Require Import base option gmap strings list fin_maps pretty.

Local Open Scope Z_scope.
Local Open Scope string_scope.

(** ** Python values *)

(** The values the instance info holds: strings (every field the API
    returns) and one dictionary of strings (the request headers). *)
Inductive pyval : Type :=
  | VStr (s : string)
  | VDict (d : gmap string string).

#[global] Instance pyval_eq_dec : EqDecision pyval.
Proof. solve_decision. Defined.

(** A Python [dict] with string keys. *)
Abbreviation pydict := (gmap string pyval).

(** References to dictionaries in the heap. *)
Definition loc := nat.

Inductive exn : Type :=
  | KeyError (k : string)
  | TypeError
  | RequestError
  | ConfigError.     (* configparser.Error: what [config.read] raises *)

(** ** The outside world *)

(** What a request comes back with.  [NetErr]: [requests] raised.
    [Data d]: the body is a JSON object whose ['data'] member is [d].
    [Token t]: the body is a JSON object whose ['access_token'] is [t].
    [Other]: any other body, one that is not JSON included; reading a member
    of it is recorded as the [KeyError] of that member. *)
Inductive reply : Type :=
  | NetErr
  | Data (d : pydict)
  | Token (t : string)
  | Other.

(** What a [RawConfigParser] holds after [read]: the options of each section
    and those of [DEFAULT], every option name as [optionxform] folded it (to
    lower case) when the file was read. *)
Record configparser : Type := {
  sections : gmap string (gmap string string);
  defaults : gmap string string
}.

(** A file on disk, as [config.read] finds it.  [Malformed]: the parser
    raises (no section header, a duplicate, a line it cannot read).
    [Parsed c]: it fills the parser with [c] (with nothing, when the file
    cannot be opened: [read] skips such a file). *)
Inductive ini_file : Type :=
  | Malformed
  | Parsed (c : configparser).

Record env : Type := {
  net : nat -> reply;            (* the reply to the n-th request of the run *)
  clock : nat -> Z;              (* the n-th reading of datetime.now(), in microseconds *)
  fs : gmap string ini_file;     (* the paths that exist *)
  isoformat : Z -> string;       (* datetime.isoformat(' ', 'seconds') *)
  repr_dict : gmap string string -> string  (* str() of a dict *)
}.

Inductive event : Type :=
  | EGet (url : string) (headers : pyval)
  | EPost (url : string) (data : option (gmap string string))
          (auth : option (string * string)) (headers : option pyval)
  | EPrint (text : string)
  | ESleep (secs : Z).

Record world : Type := {
  heap : gmap loc pydict;
  requests : nat;                (* requests sent so far *)
  ticks : nat;                   (* clock readings so far *)
  trace : list event
}.

(** ** The monad of the embedding *)

Inductive outcome (A : Type) : Type :=
  | Done (a : A)
  | Raised (e : exn)
  | Timeout.
Arguments Done {A} a.
Arguments Raised {A} e.
Arguments Timeout {A}.

Definition M (A : Type) : Type := env -> world -> outcome A * world.

Definition ret {A} (a : A) : M A := fun _ w => (Done a, w).

Definition bind {A B} (m : M A) (f : A -> M B) : M B :=
  fun E w =>
    match m E w with
    | (Done a, w') => f a E w'
    | (Raised e, w') => (Raised e, w')
    | (Timeout, w') => (Timeout, w')
    end.

Definition raise {A} (e : exn) : M A := fun _ w => (Raised e, w).

Definition out_of_fuel {A} : M A := fun _ w => (Timeout, w).

Declare Scope py_scope.
Delimit Scope py_scope with py.
Notation "x <- m ;; k" := (bind m (fun x => k))
  (at level 100, m at next level, right associativity) : py_scope.
Notation "m ;;; k" := (bind m (fun _ => k))
  (at level 100, right associativity) : py_scope.
Local Open Scope py_scope.

(** ** Primitive effects *)

(** The world after a console write or a sleep. *)
Definition log (e : event) (w : world) : world :=
  {| heap := heap w; requests := requests w; ticks := ticks w;
     trace := trace w ++ [e] |}.

Definition emit (e : event) : M unit := fun _ w => (Done tt, log e w).

Definition nl : string := String (ascii_of_nat 10) EmptyString.

(** [print(s)] and [print(s, end="")]. *)
Definition print (s : string) : M unit := emit (EPrint (s ++ nl)).
Definition print_noend (s : string) : M unit := emit (EPrint s).

(** [time.sleep(secs)] *)
Definition sleep (secs : Z) : M unit := emit (ESleep secs).

(** The world after a reading of the clock. *)
Definition tick (w : world) : world :=
  {| heap := heap w; requests := requests w; ticks := S (ticks w);
     trace := trace w |}.

(** [datetime.now()] *)
Definition now : M Z := fun E w => (Done (clock E (ticks w)), tick w).

(** The world after a request went out. *)
Definition sent (e : event) (w : world) : world :=
  {| heap := heap w; requests := S (requests w); ticks := ticks w;
     trace := trace w ++ [e] |}.

(** Sending a request: the event is recorded, and the environment answers. *)
Definition send (e : event) : M reply :=
  fun E w =>
    match net E (requests w) with
    | NetErr => (Raised RequestError, sent e w)
    | r => (Done r, sent e w)
    end.

Definition requests_get (url : string) (headers : pyval) : M reply :=
  send (EGet url headers).

Definition requests_post (url : string) (data : option (gmap string string))
    (auth : option (string * string)) (headers : option pyval) : M reply :=
  send (EPost url data auth headers).

(** [r.json()['data']] *)
Definition json_data (r : reply) : M pydict :=
  match r with
  | Data d => ret d
  | _ => raise (KeyError "data")
  end.

(** [r.json()['access_token']] *)
Definition json_access_token (r : reply) : M string :=
  match r with
  | Token t => ret t
  | _ => raise (KeyError "access_token")
  end.

(** [d[k]] on a dictionary value *)
Definition getitem (d : pydict) (k : string) : M pyval :=
  match d !! k with
  | Some v => ret v
  | None => raise (KeyError k)
  end.

(** [obj[k]] on a dictionary of the heap *)
Definition dict_get (l : loc) (k : string) : M pyval :=
  fun E w =>
    match heap w !! l with
    | Some d => getitem d k E w
    | None => (Raised TypeError, w)
    end.

(** [obj[k] = v] on a dictionary of the heap *)
Definition dict_set (l : loc) (k : string) (v : pyval) : M unit :=
  fun _ w =>
    match heap w !! l with
    | Some d =>
        (Done tt,
         {| heap := <[l := <[k := v]> d]> (heap w); requests := requests w;
            ticks := ticks w; trace := trace w |})
    | None => (Raised TypeError, w)
    end.

(** A new dictionary object. *)
Definition alloc (d : pydict) : M loc :=
  fun _ w =>
    let l := fresh (dom (heap w)) in
    (Done l,
     {| heap := <[l := d]> (heap w); requests := requests w;
        ticks := ticks w; trace := trace w |}).

(** [a + b]: concatenation on strings, a [TypeError] otherwise. *)
Definition py_add (a b : pyval) : M pyval :=
  match a, b with
  | VStr x, VStr y => ret (VStr (x ++ y))
  | _, _ => raise TypeError
  end.

(** The URL handed to [requests]. *)
Definition as_url (v : pyval) : M string :=
  match v with
  | VStr s => ret s
  | VDict _ => raise TypeError
  end.

(** [str(v)], as ['%s'] and f-strings format a value. *)
Definition py_str (E : env) (v : pyval) : string :=
  match v with
  | VStr s => s
  | VDict d => repr_dict E d
  end.

(** ** Strings: [str.find] and slicing *)

(** A [string] stands for a Python [str], one [ascii] for each of its
    characters.  [find], [len] and [slice] only compare and count characters,
    so what is proved of them does not depend on the alphabet. *)

(** Does [p] start [s]? *)
Fixpoint starts_with (p s : string) : bool :=
  match p, s with
  | EmptyString, _ => true
  | String a p', String b s' => if Ascii.eqb a b then starts_with p' s' else false
  | String _ _, EmptyString => false
  end.

(** The lowest index at or after [i] at which [sub] occurs in a string whose
    suffix from [i] on is [s]; [-1] when there is none. *)
Fixpoint find_from (sub s : string) (i : Z) : Z :=
  if starts_with sub s then i
  else match s with
       | EmptyString => -1
       | String _ s' => find_from sub s' (i + 1)
       end.

(** [s.find(sub)] *)
Definition find (s sub : string) : Z := find_from sub s 0.

(** [len(s)] *)
Definition len (s : string) : Z := Z.of_nat (String.length s).

(** How a slice bound is read: a negative bound counts from the end, and
    both ends are clipped to the string. *)
Definition slice_bound (n i : Z) : Z :=
  if (i <? 0)%Z then Z.max 0 (i + n) else Z.min i n.

(** [s[a:b]] *)
Definition slice (s : string) (a b : Z) : string :=
  let lo := slice_bound (len s) a in
  let hi := slice_bound (len s) b in
  if (lo <? hi)%Z then substring (Z.to_nat lo) (Z.to_nat (hi - lo)) s
  else EmptyString.

(** ** The functions of [neo4jAuraUtils.py] *)

Definition aura_inst_id (aura_url : string) : string :=
  let start := find aura_url "//" in
  let end_ := find aura_url "." in
  let inst_id := slice aura_url (start + len "//") end_ in
  inst_id.

(** [optionxform], which is [str.lower]; on the ASCII letters, which is all
    the option names of the source have. *)
Definition lower_ascii (c : ascii) : ascii :=
  let n := nat_of_ascii c in
  if (65 <=? n)%nat && (n <=? 90)%nat then ascii_of_nat (n + 32) else c.

Fixpoint lower (s : string) : string :=
  match s with
  | EmptyString => EmptyString
  | String c s' => String (lower_ascii c) (lower s')
  end.

(** The value a section proxy finds for an option: the name is folded, and
    looked up in the section first, then in [DEFAULT]. *)
Definition option_value (c : configparser) (sec : gmap string string) (name : string)
    : option string :=
  match sec !! lower name with
  | Some v => Some v
  | None => defaults c !! lower name
  end.

(** [config[section][option]]: a [KeyError] for a section that is not there
    (other than [DEFAULT]), and for an option found neither in the section
    nor in [DEFAULT]. *)
Definition config_get (c : configparser) (section option : string) : M string :=
  if bool_decide (section = "DEFAULT") then
    match option_value c ∅ option with
    | None => raise (KeyError option)
    | Some v => ret v
    end
  else
    match sections c !! section with
    | None => raise (KeyError section)
    | Some sec =>
        match option_value c sec option with
        | None => raise (KeyError option)
        | Some v => ret v
        end
    end.

(** [config.read(file)] *)
Definition config_read (file : ini_file) : M configparser :=
  match file with
  | Malformed => raise ConfigError
  | Parsed c => ret c
  end.

(** [NEO4J_PROPERTIES_FILE is not None and os.path.exists(NEO4J_PROPERTIES_FILE)],
    with the file that is there. *)
Definition existing_file (E : env) (NEO4J_PROPERTIES_FILE : option string)
    : option (string * ini_file) :=
  match NEO4J_PROPERTIES_FILE with
  | Some path =>
      match fs E !! path with
      | Some file => Some (path, file)
      | None => None
      end
  | None => None
  end.

Definition read_neo4j_properties (NEO4J_PROPERTIES_FILE : option string)
    : M (option (string * string * string * string * string)) :=
  fun E =>
    match existing_file E NEO4J_PROPERTIES_FILE with
    | Some (path, file) =>
        (config <- config_read file ;;
         aura_api <- config_get config "AURA" "AURA_API" ;;
         aura_url <- config_get config "AURA" "AURA_URL" ;;
         aura_token_url <- config_get config "AURA" "AURA_TOKEN_URL" ;;
         aura_api_client_id <- config_get config "AURA" "AURA_API_CLIENT_ID" ;;
         aura_client_secret <- config_get config "AURA" "AURA_CLIENT_SECRET" ;;
         print ("Using AURA_API, AURA_URL, AURA_TOKEN_URL, AURA_API_CLIENT_ID, AURA_CLIENT_SECRET from "
                ++ path ++ " file") ;;;
         ret (Some (aura_api, aura_url, aura_token_url, aura_api_client_id,
                    aura_client_secret))) E
    | None =>
        (* the message is not an f-string: the braces are printed as they are;
           the function then falls off its end and returns None *)
        (print ("Awww... Snap!" ++ nl ++
                "ERROR: Could not find database properties file: {NEO4J_PROPERTIES_FILE} ") ;;;
         ret None) E
    end.

Definition aura_set_request_header
    (aura_api_client_id aura_client_secret aura_token_url : string) : M pyval :=
  let data : gmap string string := {[ "grant_type" := "client_credentials" ]} in
  r <- requests_post aura_token_url (Some data)
         (Some (aura_api_client_id, aura_client_secret)) None ;;
  access_token <- json_access_token r ;;
  ret (VDict (<[ "Authorization" := "Bearer " ++ access_token ]>
               (<[ "accept" := "application/json" ]>
                 {[ "Content-Type" := "application/json" ]}))).

Definition aura_inst_info (aura_api inst_id : string) (headers : pyval) : M loc :=
  r <- requests_get (aura_api ++ inst_id) headers ;;
  d <- json_data r ;;
  inst_info <- alloc d ;;
  dict_set inst_info "aura_api" (VStr aura_api) ;;;
  dict_set inst_info "headers" headers ;;;
  t <- now ;;
  (fun E => dict_set inst_info "info_updated" (VStr (isoformat E t)) E) ;;;
  ret inst_info.

Definition aura_inst_state (inst_info : loc) : M loc :=
  api <- dict_get inst_info "aura_api" ;;
  id <- dict_get inst_info "id" ;;
  u <- py_add api id ;;
  url <- as_url u ;;
  headers <- dict_get inst_info "headers" ;;
  r <- requests_get url headers ;;
  d <- json_data r ;;
  status <- getitem d "status" ;;
  dict_set inst_info "status" status ;;;
  t <- now ;;
  (fun E => dict_set inst_info "info_updated" (VStr (isoformat E t)) E) ;;;
  ret inst_info.

(** [(b - a).seconds] for two datetimes in microseconds: a timedelta is kept
    as days, seconds (0 to 86399) and microseconds, and [.seconds] is the
    middle part only. *)
Definition timedelta_seconds (a b : Z) : Z := ((b - a) / 1000000) mod 86400.

(** [divmod(a, b)] *)
Definition divmod (a b : Z) : Z * Z := (a / b, a mod b).

(** [s.rjust(width, fill)] *)
Definition rjust (width : nat) (fill : ascii) (s : string) : string :=
  string_of_list_ascii (replicate (width - String.length s) fill) ++ s.

(** [f"{n:0>{2}}"]: right-aligned in two columns, filled with zeros. *)
Definition pad2 (n : Z) : string := rjust 2 "0"%char (pretty n).

(** The two [divmod] steps of [aura_change_state]. *)
Definition elapsed_hms (req_start_time req_end_time : Z) : Z * Z * Z :=
  let '(mm, ss) := divmod (timedelta_seconds req_start_time req_end_time) 60 in
  let '(hh, mm) := divmod mm 60 in
  (hh, mm, ss).

(** The [while] loop of [aura_change_state]. *)
Fixpoint poll_until (fuel : nat) (new_state : pyval) (inst_info : loc) : M unit :=
  match fuel with
  | O => out_of_fuel
  | S fuel' =>
      r <- aura_inst_state inst_info ;;
      status <- dict_get r "status" ;;
      if bool_decide (new_state <> status) then
        print_noend "." ;;;
        sleep 5 ;;;
        poll_until fuel' new_state inst_info
      else ret tt
  end.

Definition aura_change_state (fuel : nat) (new_state : pyval) (inst_action : string)
    (inst_info : loc) : M unit :=
  req_start_time <- now ;;
  name <- dict_get inst_info "name" ;;
  id <- dict_get inst_info "id" ;;
  status <- dict_get inst_info "status" ;;
  (fun E =>
     print_noend (isoformat E req_start_time
                  ++ " : Requesting changing Aura instances for instance '"
                  ++ py_str E name ++ "' (id: '" ++ py_str E id
                  ++ "') state from '" ++ py_str E status ++ "' to '"
                  ++ py_str E new_state ++ "'") E) ;;;
  api <- dict_get inst_info "aura_api" ;;
  id <- dict_get inst_info "id" ;;
  u <- py_add api id ;;
  u <- py_add u (VStr "/") ;;
  u <- py_add u (VStr inst_action) ;;
  url <- as_url u ;;
  headers <- dict_get inst_info "headers" ;;
  r <- requests_post url None None (Some headers) ;;
  poll_until fuel new_state inst_info ;;;
  req_end_time <- now ;;
  name <- dict_get inst_info "name" ;;
  id <- dict_get inst_info "id" ;;
  (fun E =>
     print (nl ++ isoformat E req_end_time ++ " : Instance state for instance '"
            ++ py_str E name ++ "' (id: '" ++ py_str E id ++ "') is now '"
            ++ py_str E new_state ++ "'") E) ;;;
  let '(hh, mm, ss) := elapsed_hms req_start_time req_end_time in
  print ("Elapsed time to change state " ++ pad2 hh ++ ":" ++ pad2 mm ++ ":" ++ pad2 ss) ;;;
  ret tt.

Definition aura_request_state_change (fuel : nat) (new_state : pyval) (inst_info : loc)
    : M unit :=
  inst_info <- aura_inst_state inst_info ;;
  status <- dict_get inst_info "status" ;;
  if bool_decide (status = new_state) then
    name <- dict_get inst_info "name" ;;
    id <- dict_get inst_info "id" ;;
    status <- dict_get inst_info "status" ;;
    (fun E =>
       print ("Instance '" ++ py_str E name ++ "' (id: '" ++ py_str E id
              ++ "') is already '" ++ py_str E status ++ "'.") E)
  else
    resume <- (if bool_decide (new_state = VStr "running") then
                 status <- dict_get inst_info "status" ;;
                 ret (bool_decide (status = VStr "paused"))
               else ret false) ;;
    if resume then
      aura_change_state fuel new_state "resume" inst_info
    else
      pause <- (if bool_decide (new_state = VStr "paused") then
                  status <- dict_get inst_info "status" ;;
                  ret (bool_decide (status = VStr "running"))
                else ret false) ;;
      if pause then
        aura_change_state fuel new_state "pause" inst_info
      else
        print "Can only change instance state from 'running' to 'paused', or 'paused' to 'running'.".

Definition aura_api_connect (dot_ini_file : option string) : M loc :=
  props <- read_neo4j_properties dot_ini_file ;;
  match props with
  | None => raise TypeError    (* None cannot be unpacked into five names *)
  | Some (AURA_API, AURA_URL, AURA_TOKEN_URL, AURA_API_CLIENT_ID, AURA_CLIENT_SECRET) =>
      aura_headers <- aura_set_request_header AURA_API_CLIENT_ID AURA_CLIENT_SECRET
                        AURA_TOKEN_URL ;;
      let inst_id := aura_inst_id AURA_URL in
      aura_inst_info AURA_API inst_id aura_headers
  end.

(** * The vocabulary of the statements *)

(** [field w l k]: the value under key [k] of the dictionary at [l]. *)
Definition field (w : world) (l : loc) (k : string) : option pyval :=
  match heap w !! l with
  | Some d => d !! k
  | None => None
  end.

(** The world after a successful [aura_inst_state] on the dictionary [m] at
    [l], when the API answered with status [s]. *)
Definition refreshed (E : env) (w : world) (l : loc) (m : pydict) (url : string)
    (h s : pyval) : world :=
  {| heap := <[l := <["info_updated" := VStr (isoformat E (clock E (ticks w)))]>
                       (<["status" := s]> m)]> (heap w);
     requests := S (requests w);
     ticks := S (ticks w);
     trace := trace w ++ [EGet url h] |}.

(** [sub in s] *)
Fixpoint contains (s sub : string) : bool :=
  starts_with sub s ||
  match s with
  | EmptyString => false
  | String _ s' => contains s' sub
  end.

(** The network requests of a trace, in order. *)
Definition is_request (e : event) : bool :=
  match e with
  | EGet _ _ | EPost _ _ _ _ => true
  | EPrint _ | ESleep _ => false
  end.

Definition requests_of (t : list event) : list event := List.filter is_request t.

Definition is_post (e : event) : bool :=
  match e with
  | EPost _ _ _ _ => true
  | _ => false
  end.

Definition posts_of (t : list event) : list event := List.filter is_post t.

(** The status in the reply to the most recent request. *)
Definition last_reply_status (E : env) (w : world) : option pyval :=
  match requests w with
  | O => None
  | S n => match net E n with
           | Data d => d !! "status"
           | _ => None
           end
  end.

(** The most recent request was a status GET, and the ['status'] field holds
    the status that came back. *)
Definition status_in_sync (E : env) (w : world) (l : loc) : Prop :=
  is_Some (field w l "status") /\
  field w l "status" = last_reply_status E w /\
  exists url h, last (requests_of (trace w)) = Some (EGet url h).

(** [w'] differs from [w] at most in the ['status'] and ['info_updated'] keys
    of the dictionary at [l]. *)
Definition only_status_changed (w w' : world) (l : loc) : Prop :=
  forall l' k, l' <> l \/ (k <> "status" /\ k <> "info_updated") ->
    field w' l' k = field w l' k.

(** One turn of the loop that did not see the target yet. *)
Definition poll_again (url : string) (h : pyval) : list event :=
  [EGet url h; EPrint "."; ESleep 5].

(** The message of the branch that finds nothing to do. *)
Definition already_msg (E : env) (name id status : pyval) : string :=
  "Instance '" ++ py_str E name ++ "' (id: '" ++ py_str E id
  ++ "') is already '" ++ py_str E status ++ "'.".

Definition rejection_msg : string :=
  "Can only change instance state from 'running' to 'paused', or 'paused' to 'running'.".

(** What [aura_request_state_change] does once its refresh has fetched the
    status [s]. *)
Definition after_refresh (fuel : nat) (new_state s : pyval) (l : loc) : M unit :=
  if bool_decide (s = new_state) then
    name <- dict_get l "name" ;;
    id <- dict_get l "id" ;;
    status <- dict_get l "status" ;;
    (fun E => print (already_msg E name id status) E)
  else if bool_decide (new_state = VStr "running") && bool_decide (s = VStr "paused") then
    aura_change_state fuel new_state "resume" l
  else if bool_decide (new_state = VStr "paused") && bool_decide (s = VStr "running") then
    aura_change_state fuel new_state "pause" l
  else print rejection_msg.

Definition not_found_msg : string :=
  "Awww... Snap!" ++ nl ++
  "ERROR: Could not find database properties file: {NEO4J_PROPERTIES_FILE} ".

(** ** A sample instance, for concrete runs *)

Definition ex_headers : pyval :=
  VDict (<[ "Authorization" := "Bearer t0k3n" ]> {[ "accept" := "application/json" ]}).

Definition ex_api : string := "https://api.neo4j.io/v1/instances/".

Definition ex_info (status : string) : pydict :=
  <[ "name" := VStr "db" ]>
  (<[ "id" := VStr "2bxxxxxx" ]>
  (<[ "status" := VStr status ]>
  (<[ "aura_api" := VStr ex_api ]>
  (<[ "headers" := ex_headers ]>
  {[ "info_updated" := VStr "0" ]})))).

(** A world whose only object, at reference 0, is the instance info. *)
Definition ex_world (status : string) : world :=
  {| heap := {[ 0%nat := ex_info status ]}; requests := 0; ticks := 0; trace := [] |}.

Definition status_reply (s : string) : reply := Data {[ "status" := VStr s ]}.

(** An environment that answers the first requests from a list and every
    later one with [rest]; its clock advances seven seconds per reading. *)
Definition ex_env (replies : list reply) (rest : reply) : env :=
  {| net := fun n => nth n replies rest;
     clock := fun n => Z.of_nat (S n) * 7000000;
     fs := {[ "empty.ini" := Parsed {| sections := ∅; defaults := ∅ |} ]};
     isoformat := fun t => pretty (t / 1000000);
     repr_dict := fun _ => "{...}" |}.

(** ** Vocabulary of the further properties *)

(** [within R n m]: whatever [m] does and however it ends, the worlds before
    and after are related by [R n].  The grade [n] counts what may happen at
    most so often (here: POSTs). *)
Definition within {A} (R : nat -> world -> world -> Prop) (n : nat) (m : M A) : Prop :=
  forall E w o w', m E w = (o, w') -> R n w w'.

(** [m] returns only values that satisfy [Post]. *)
Definition returns {A} (m : M A) (Post : A -> Prop) : Prop :=
  forall E w a w', m E w = (Done a, w') -> Post a.

(** The world after [obj[k] = v] on the dictionary [d] at [l]. *)
Definition stored (l : loc) (k : string) (v : pyval) (d : pydict) (w : world) : world :=
  {| heap := <[l := <[k := v]> d]> (heap w); requests := requests w;
     ticks := ticks w; trace := trace w |}.

(** No object is created or removed, and nothing changes but the ['status']
    and ['info_updated'] keys of the dictionary at [l]. *)
Definition frame (l : loc) (n : nat) (w w' : world) : Prop :=
  only_status_changed w w' l /\ dom (heap w') = dom (heap w).

(** A POST that [aura_request_state_change] may send for the target
    [new_state]: to a URL that ends in ["/resume"] when the target is
    ["running"], in ["/pause"] when it is ["paused"]. *)
Definition action_post (new_state : pyval) (e : event) : Prop :=
  exists base h inst_action,
    e = EPost ((base ++ "/") ++ inst_action) None None (Some h) /\
    ((inst_action = "resume" /\ new_state = VStr "running") \/
     (inst_action = "pause" /\ new_state = VStr "paused")).

(** The POSTs of the trace grew by at most [n] events, each one allowed. *)
Definition posts_grow (allowed : event -> Prop) (n : nat) (w w' : world) : Prop :=
  exists ps, posts_of (trace w') = (posts_of (trace w) ++ ps)%list /\
             (length ps <= n)%nat /\ Forall allowed ps.

(** The three lines [aura_change_state] writes, without their line ends. *)
Definition requesting_msg (E : env) (t : Z) (name id status new_state : pyval) : string :=
  isoformat E t ++ " : Requesting changing Aura instances for instance '"
  ++ py_str E name ++ "' (id: '" ++ py_str E id ++ "') state from '"
  ++ py_str E status ++ "' to '" ++ py_str E new_state ++ "'".

Definition changed_msg (E : env) (t : Z) (name id new_state : pyval) : string :=
  nl ++ isoformat E t ++ " : Instance state for instance '" ++ py_str E name
  ++ "' (id: '" ++ py_str E id ++ "') is now '" ++ py_str E new_state ++ "'".

Definition elapsed_msg (t0 t1 : Z) : string :=
  let '(hh, mm, ss) := elapsed_hms t0 t1 in
  "Elapsed time to change state " ++ pad2 hh ++ ":" ++ pad2 mm ++ ":" ++ pad2 ss.

(** The seconds slept in a trace. *)
Fixpoint slept (t : list event) : Z :=
  match t with
  | [] => 0
  | ESleep secs :: t' => secs + slept t'
  | _ :: t' => slept t'
  end.

(** The options [read_neo4j_properties] reads, in the order it reads them. *)
Definition aura_options : list string :=
  ["AURA_API"; "AURA_URL"; "AURA_TOKEN_URL"; "AURA_API_CLIENT_ID"; "AURA_CLIENT_SECRET"].

(** The first of them that is found neither in the section nor in [DEFAULT]. *)
Definition first_missing (c : configparser) (sec : gmap string string) : option string :=
  List.find (fun k => bool_decide (option_value c sec k = None)) aura_options.

Definition using_msg (path : string) : string :=
  "Using AURA_API, AURA_URL, AURA_TOKEN_URL, AURA_API_CLIENT_ID, AURA_CLIENT_SECRET from "
  ++ path ++ " file".

(** The form data of the token request, and the headers built from a token. *)
Definition token_data : gmap string string :=
  {[ "grant_type" := "client_credentials" ]}.

Definition bearer_headers (access_token : string) : gmap string string :=
  <[ "Authorization" := "Bearer " ++ access_token ]>
    (<[ "accept" := "application/json" ]>
       {[ "Content-Type" := "application/json" ]}).

(** The keys [aura_inst_info] writes over what the API sent. *)
Definition set_by_inst_info (k : string) : Prop :=
  k = "aura_api" \/ k = "headers" \/ k = "info_updated".

(** A string of exactly two decimal digits. *)
Definition is_digit (c : ascii) : bool :=
  (48 <=? nat_of_ascii c)%nat && (nat_of_ascii c <=? 57)%nat.

Definition two_digits (s : string) : bool :=
  match s with
  | String a (String b EmptyString) => is_digit a && is_digit b
  | _ => false
  end.

(** A credentials file as the parser holds it (the secret comes from
    [DEFAULT]), and an environment that has a file on disk. *)
Definition ex_section : gmap string string :=
  <[ "aura_api" := ex_api ]>
  (<[ "aura_url" := "neo4j+s://2bxxxxxx.databases.neo4j.io" ]>
  (<[ "aura_token_url" := "https://api.neo4j.io/oauth/token" ]>
  {[ "aura_api_client_id" := "client" ]})).

Definition ex_config : configparser :=
  {| sections := {[ "AURA" := ex_section ]};
     defaults := {[ "aura_client_secret" := "s3cr3t" ]} |}.

Definition ex_env_file (file : ini_file)
    (replies : list reply) (rest : reply) : env :=
  {| net := fun n => nth n replies rest;
     clock := fun n => Z.of_nat (S n) * 7000000;
     fs := {[ "neo4jConfig.ini" := file ]};
     isoformat := fun t => pretty (t / 1000000);
     repr_dict := fun _ => "{...}" |}.

(** What the API sends about the sample instance. *)
Definition ex_data : pydict :=
  <[ "name" := VStr "db" ]>
  (<[ "id" := VStr "2bxxxxxx" ]>
  {[ "status" := VStr "running" ]}).

(** * Properties *)

(** ** Runs of [aura_inst_state] *)

(** Case analysis on the innermost scrutinee of a run. *)
Ltac destruct_inner x :=
  lazymatch x with
  | context [match ?y with _ => _ end] => destruct_inner y
  | _ => let Hx := fresh "Hx" in destruct x eqn:Hx
  end.

Ltac run_step :=
  match goal with
  | H : (_, _) = (_, _) |- _ => inversion H; clear H; subst
  | H : context [match ?x with _ => _ end] |- _ =>
      destruct_inner x; simpl in H; try discriminate
  end.

Ltac unfold_prims :=
  unfold bind, ret, raise, out_of_fuel, dict_get, dict_set, getitem, py_add, as_url,
    requests_get, requests_post, send, json_data, json_access_token, now, print,
    print_noend, sleep, emit, alloc, log, tick, sent in *.

Lemma aura_inst_state_run E w l m api id h d s :
  heap w !! l = Some m ->
  m !! "aura_api" = Some (VStr api) ->
  m !! "id" = Some (VStr id) ->
  m !! "headers" = Some h ->
  net E (requests w) = Data d ->
  d !! "status" = Some s ->
  aura_inst_state l E w = (Done l, refreshed E w l m (api ++ id) h s).
Proof.
  intros Hl Ha Hi Hh Hn Hs.
  unfold aura_inst_state, refreshed. unfold_prims. simpl.
  rewrite Hl, Ha. simpl. rewrite Hl, Hi. simpl. rewrite Hl, Hh. simpl.
  rewrite Hn. simpl. rewrite Hs. simpl. rewrite Hl. simpl.
  rewrite lookup_insert_eq. simpl. rewrite insert_insert_eq. reflexivity.
Qed.

Lemma aura_inst_state_inv E w l r w' :
  aura_inst_state l E w = (Done r, w') ->
  exists m api id h d s,
    heap w !! l = Some m /\ m !! "aura_api" = Some (VStr api) /\
    m !! "id" = Some (VStr id) /\ m !! "headers" = Some h /\
    net E (requests w) = Data d /\ d !! "status" = Some s /\
    r = l /\ w' = refreshed E w l m (api ++ id) h s.
Proof.
  intros H. unfold aura_inst_state in H. unfold_prims. simpl in H.
  repeat run_step. simplify_eq.
  rewrite lookup_insert_eq in *. simplify_eq.
  rewrite insert_insert_eq.
  do 6 eexists. repeat (split; [eassumption || reflexivity|]). reflexivity.
Qed.

(** ** The elapsed-time report *)

Lemma divmod_60_bounds a :
  0 <= snd (divmod a 60) < 60 /\ a = fst (divmod a 60) * 60 + snd (divmod a 60).
Proof.
  unfold divmod. simpl. split.
  - apply Z.mod_pos_bound. lia.
  - rewrite Z.mul_comm. apply Z.div_mod. lia.
Qed.

Lemma timedelta_seconds_range a b : 0 <= timedelta_seconds a b < 86400.
Proof. unfold timedelta_seconds. apply Z.mod_pos_bound. lia. Qed.

(** C10: the two [divmod] steps split the [.seconds] of the elapsed time into
    hours, minutes below 60 and seconds below 60 that add up to the elapsed
    whole seconds modulo 86400; the sum is the elapsed time itself exactly
    when that is under one day (and not negative). *)
Theorem elapsed_hms_sound (req_start_time req_end_time : Z) :
  let elapsed := (req_end_time - req_start_time) / 1000000 in
  let '(hh, mm, ss) := elapsed_hms req_start_time req_end_time in
  (0 <= ss < 60 /\ 0 <= mm < 60 /\ 0 <= hh < 24) /\
  hh * 3600 + mm * 60 + ss = elapsed mod 86400 /\
  (hh * 3600 + mm * 60 + ss = elapsed <-> 0 <= elapsed < 86400).
Proof.
  unfold elapsed_hms.
  pose proof (timedelta_seconds_range req_start_time req_end_time) as Hr.
  unfold timedelta_seconds in *.
  set (e := (req_end_time - req_start_time) / 1000000) in *.
  set (t := e mod 86400) in *.
  destruct (divmod_60_bounds t) as [Hs Ht].
  destruct (divmod_60_bounds (fst (divmod t 60))) as [Hm Hq].
  unfold divmod in *. simpl in *.
  assert (Hsum : t / 60 / 60 * 3600 + (t / 60) mod 60 * 60 + t mod 60 = t) by lia.
  assert (Hh : 0 <= t / 60 / 60 < 24).
  { split.
    - apply Z.div_pos; [apply Z.div_pos|]; lia.
    - apply Z.div_lt_upper_bound; [lia|].
      apply Z.div_lt_upper_bound; lia. }
  split; [lia|]. split; [lia|]. rewrite Hsum. split.
  - intros Heq. rewrite <- Heq. lia.
  - intros He. unfold t. apply Z.mod_small. lia.
Qed.

(** ** The instance id in a connection URL *)

Lemma contains_cons c s sub :
  contains (String c s) sub = starts_with sub (String c s) || contains s sub.
Proof. reflexivity. Qed.

Lemma length_app_string a b :
  String.length (a ++ b) = (String.length a + String.length b)%nat.
Proof. induction a as [|c a IH]; simpl; [reflexivity|]. by rewrite IH. Qed.

Lemma append_assoc (a b c : string) : (a ++ b) ++ c = a ++ b ++ c.
Proof.
  induction a as [|x a IH]; [reflexivity|].
  change (String x ((a ++ b) ++ c) = String x (a ++ b ++ c)). by rewrite IH.
Qed.

Lemma len_append a b : len (a ++ b) = len a + len b.
Proof. unfold len. rewrite length_app_string. lia. Qed.

Lemma len_nonneg s : 0 <= len s.
Proof. unfold len. lia. Qed.

Lemma substring_front m b : substring 0 (String.length m) (m ++ b) = m.
Proof.
  induction m as [|d m IHm]; simpl.
  - by destruct b.
  - by rewrite IHm.
Qed.

Lemma substring_middle a m b :
  substring (String.length a) (String.length m) (a ++ m ++ b) = m.
Proof.
  induction a as [|c a IHa].
  - change ("" ++ m ++ b) with (m ++ b). apply substring_front.
  - simpl. exact IHa.
Qed.

(** A search for ["//"] passes over a prefix in which no ["//"] begins. *)
Lemma find_from_slashes pre t i :
  contains (pre ++ "/") "//" = false ->
  find_from "//" (pre ++ "//" ++ t) i = i + len pre.
Proof.
  revert i. induction pre as [|c pre IH]; intros i Hc.
  - simpl. unfold len. simpl. lia.
  - change (String c pre ++ "/") with (String c (pre ++ "/")) in Hc.
    rewrite contains_cons in Hc. apply orb_false_iff in Hc as [Hs Hc].
    change (find_from "//" (String c pre ++ "//" ++ t) i)
      with (if starts_with "//" (String c (pre ++ "//" ++ t)) then i
            else find_from "//" (pre ++ "//" ++ t) (i + 1)).
    assert (Heq : starts_with "//" (String c (pre ++ "//" ++ t))
                  = starts_with "//" (String c (pre ++ "/")))
      by (destruct pre; reflexivity).
    rewrite Heq, Hs, IH by exact Hc. unfold len. cbn [String.length]. lia.
Qed.

(** A search for ["."] passes over a prefix that has no dot. *)
Lemma find_from_dot pre t i :
  contains pre "." = false ->
  find_from "." (pre ++ "." ++ t) i = i + len pre.
Proof.
  revert i. induction pre as [|c pre IH]; intros i Hc.
  - simpl. unfold len. simpl. lia.
  - rewrite contains_cons in Hc. apply orb_false_iff in Hc as [Hs Hc].
    change (find_from "." (String c pre ++ "." ++ t) i)
      with (if starts_with "." (String c (pre ++ "." ++ t)) then i
            else find_from "." (pre ++ "." ++ t) (i + 1)).
    assert (Heq : starts_with "." (String c (pre ++ "." ++ t))
                  = starts_with "." (String c pre)) by reflexivity.
    rewrite Heq, Hs, IH by exact Hc. unfold len. cbn [String.length]. lia.
Qed.

(** A slice whose bounds fall on the two ends of a middle part is that part. *)
Lemma slice_bounds a m b lo hi :
  slice_bound (len (a ++ m ++ b)) lo = len a ->
  slice_bound (len (a ++ m ++ b)) hi = len a + len m ->
  slice (a ++ m ++ b) lo hi = m.
Proof.
  intros Hlo Hhi. unfold slice. rewrite Hlo, Hhi.
  pose proof (len_nonneg a). pose proof (len_nonneg m).
  destruct (Z.ltb_spec (len a) (len a + len m)).
  - replace (len a + len m - len a) with (len m) by lia.
    unfold len. rewrite !Nat2Z.id. apply substring_middle.
  - assert (len m = 0) by lia. unfold len in *. destruct m; [reflexivity|].
    simpl in *. lia.
Qed.

Lemma slice_middle a m b :
  slice (a ++ m ++ b) (len a) (len a + len m) = m.
Proof.
  pose proof (len_nonneg a). pose proof (len_nonneg m). pose proof (len_nonneg b).
  apply slice_bounds; unfold slice_bound; rewrite !len_append.
  - destruct (Z.ltb_spec (len a) 0); lia.
  - destruct (Z.ltb_spec (len a + len m) 0); lia.
Qed.

(** A search for something that does not occur answers [-1]. *)
Lemma find_from_absent sub s i :
  contains s sub = false -> find_from sub s i = -1.
Proof.
  revert i. induction s as [|c s IH]; intros i Hc.
  - simpl in *. rewrite orb_false_r in Hc. by rewrite Hc.
  - rewrite contains_cons in Hc. apply orb_false_iff in Hc as [Hs Hc].
    change (find_from sub (String c s) i)
      with (if starts_with sub (String c s) then i else find_from sub s (i + 1)).
    rewrite Hs. by apply IH.
Qed.

Lemma aura_inst_id_between pre mid rest :
  contains (pre ++ "/") "//" = false ->
  contains (pre ++ "//" ++ mid) "." = false ->
  aura_inst_id (pre ++ "//" ++ mid ++ "." ++ rest) = mid.
Proof.
  intros Hs Hd. unfold aura_inst_id, find.
  rewrite find_from_slashes by exact Hs.
  replace (pre ++ "//" ++ mid ++ "." ++ rest)
    with ((pre ++ "//" ++ mid) ++ "." ++ rest) at 2.
  2:{ by rewrite !append_assoc. }
  rewrite find_from_dot by exact Hd.
  replace (pre ++ "//" ++ mid ++ "." ++ rest)
    with ((pre ++ "//") ++ mid ++ "." ++ rest).
  2:{ by rewrite !append_assoc. }
  replace (0 + len pre + len "//") with (len (pre ++ "//")).
  2:{ rewrite len_append. lia. }
  replace (0 + len (pre ++ "//" ++ mid)) with (len (pre ++ "//") + len mid).
  2:{ rewrite !len_append. lia. }
  apply slice_middle.
Qed.

(** Outside the precondition.  A dot before the slashes: the slice is empty. *)
Lemma aura_inst_id_dot_first a b rest :
  contains a "." = false ->
  contains (a ++ "." ++ b ++ "/") "//" = false ->
  aura_inst_id (a ++ "." ++ b ++ "//" ++ rest) = "".
Proof.
  intros Hd Hs. unfold aura_inst_id, find.
  rewrite find_from_dot by exact Hd.
  replace (a ++ "." ++ b ++ "//" ++ rest) with ((a ++ "." ++ b) ++ "//" ++ rest)
    by (by rewrite !append_assoc).
  rewrite find_from_slashes by (by rewrite !append_assoc).
  unfold slice, slice_bound. rewrite !len_append.
  pose proof (len_nonneg a). pose proof (len_nonneg b). pose proof (len_nonneg rest).
  change (len ".") with 1. change (len "//") with 2.
  destruct (Z.ltb_spec (0 + (len a + (1 + len b)) + 2) 0); [lia|].
  destruct (Z.ltb_spec (0 + len a) 0); [lia|].
  destruct (Z.ltb_spec
              (Z.min (0 + (len a + (1 + len b)) + 2)
                 (len a + (1 + len b) + (2 + len rest)))
              (Z.min (0 + len a) (len a + (1 + len b) + (2 + len rest))));
    [lia|reflexivity].
Qed.

(** No dot at all: the end of the slice is [-1], and the last character of
    the URL is cut off. *)
Lemma aura_inst_id_no_dot pre mid c :
  contains (pre ++ "/") "//" = false ->
  contains (pre ++ "//" ++ mid ++ String c "") "." = false ->
  aura_inst_id (pre ++ "//" ++ mid ++ String c "") = mid.
Proof.
  intros Hs Hd. unfold aura_inst_id, find.
  rewrite find_from_slashes by exact Hs.
  rewrite (find_from_absent "." _ 0 Hd).
  replace (pre ++ "//" ++ mid ++ String c "") with ((pre ++ "//") ++ mid ++ String c "")
    by (by rewrite !append_assoc).
  pose proof (len_nonneg pre). pose proof (len_nonneg mid).
  apply slice_bounds; unfold slice_bound; rewrite !len_append;
    change (len "//") with 2; change (len (String c "")) with 1.
  - destruct (Z.ltb_spec (0 + len pre + 2) 0); lia.
  - destruct (Z.ltb_spec (-1) 0); lia.
Qed.

(** No slashes: the slice starts at [-1 + 2], and the first character of the
    URL is cut off. *)
Lemma aura_inst_id_no_slashes c mid rest :
  contains (String c mid ++ "." ++ rest) "//" = false ->
  contains (String c mid) "." = false ->
  aura_inst_id (String c mid ++ "." ++ rest) = mid.
Proof.
  intros Hs Hd. unfold aura_inst_id, find.
  rewrite (find_from_absent "//" _ 0 Hs).
  rewrite find_from_dot by exact Hd.
  change (String c mid ++ "." ++ rest) with (String c "" ++ mid ++ "." ++ rest).
  pose proof (len_nonneg mid). pose proof (len_nonneg rest).
  apply slice_bounds; unfold slice_bound; rewrite !len_append;
    change (len "//") with 2; change (len (String c "")) with 1;
    change (len ".") with 1.
  - destruct (Z.ltb_spec (-1 + 2) 0); lia.
  - change (len (String c mid)) with (len (String c "" ++ mid)).
    rewrite len_append. change (len (String c "")) with 1.
    destruct (Z.ltb_spec (0 + (1 + len mid)) 0); lia.
Qed.

(** No dot and nothing after the slashes: nothing is left. *)
Lemma aura_inst_id_no_dot_empty pre :
  contains (pre ++ "/") "//" = false ->
  contains (pre ++ "//") "." = false ->
  aura_inst_id (pre ++ "//") = "".
Proof.
  intros Hs Hd. unfold aura_inst_id, find.
  rewrite (find_from_absent "." _ 0 Hd).
  change (pre ++ "//") with (pre ++ "//" ++ "").
  rewrite find_from_slashes by exact Hs.
  unfold slice, slice_bound. rewrite !len_append.
  pose proof (len_nonneg pre). change (len "") with 0. change (len "//") with 2.
  repeat match goal with
         | |- context [(?a <? ?b)%Z] => destruct (Z.ltb_spec a b)
         end; try lia; reflexivity.
Qed.

(** No slashes and a dot at the very start: nothing is left. *)
Lemma aura_inst_id_no_slashes_empty rest :
  contains ("." ++ rest) "//" = false ->
  aura_inst_id ("." ++ rest) = "".
Proof.
  intros Hs. unfold aura_inst_id, find.
  rewrite (find_from_absent "//" _ 0 Hs).
  change (find_from "." ("." ++ rest) 0) with 0.
  unfold slice, slice_bound.
  change (len ("." ++ rest)) with (len (String "." EmptyString ++ rest)).
  rewrite len_append. pose proof (len_nonneg rest).
  change (len (String "." EmptyString)) with 1. change (len "//") with 2.
  repeat match goal with
         | |- context [(?a <? ?b)%Z] => destruct (Z.ltb_spec a b)
         end; try lia; reflexivity.
Qed.

(** Neither slashes nor a dot: the first and the last character are cut off. *)
Lemma aura_inst_id_no_marker a mid b :
  contains (String a (mid ++ String b "")) "//" = false ->
  contains (String a (mid ++ String b "")) "." = false ->
  aura_inst_id (String a (mid ++ String b "")) = mid.
Proof.
  intros Hs Hd. unfold aura_inst_id, find.
  rewrite (find_from_absent "//" _ 0 Hs), (find_from_absent "." _ 0 Hd).
  change (String a (mid ++ String b "")) with (String a "" ++ mid ++ String b "").
  pose proof (len_nonneg mid).
  apply slice_bounds; unfold slice_bound; rewrite !len_append;
    change (len "//") with 2; change (len (String a "")) with 1;
    change (len (String b "")) with 1.
  - destruct (Z.ltb_spec (-1 + 2) 0); lia.
  - destruct (Z.ltb_spec (-1) 0); lia.
Qed.

(** Neither marker, and fewer than two characters: nothing is left. *)
Lemma aura_inst_id_short url :
  (String.length url <= 1)%nat ->
  contains url "//" = false -> contains url "." = false ->
  aura_inst_id url = "".
Proof.
  intros Hlen Hs Hd. unfold aura_inst_id, find.
  rewrite (find_from_absent "//" _ 0 Hs), (find_from_absent "." _ 0 Hd).
  destruct url as [|c [|d url]]; [reflexivity|reflexivity|].
  simpl in Hlen. lia.
Qed.

(** [starts_with] and [contains] say what their names say. *)
Lemma starts_with_spec p s : starts_with p s = true <-> exists q, s = p ++ q.
Proof.
  revert s. induction p as [|a p IH]; intros s; simpl.
  - split; [intros _; by exists s | reflexivity].
  - destruct s as [|b s].
    + split; [discriminate | intros [q Hq]; discriminate].
    + destruct (Ascii.eqb_spec a b) as [->|Hne].
      * rewrite IH. split; intros [q Hq]; exists q; [by rewrite Hq | by inversion Hq].
      * split; [discriminate | intros [q Hq]; inversion Hq; congruence].
Qed.

Lemma contains_spec s sub : contains s sub = true <-> exists p q, s = p ++ sub ++ q.
Proof.
  induction s as [|c s IH].
  - simpl. rewrite orb_false_r, starts_with_spec. split.
    + intros [q Hq]. by exists "", q.
    + intros [p [q Hq]]. destruct p; [by exists q | discriminate].
  - rewrite contains_cons, orb_true_iff, starts_with_spec, IH. split.
    + intros [[q Hq] | [p [q Hq]]].
      * by exists "", q.
      * exists (String c p), q. by rewrite Hq.
    + intros [p [q Hq]]. destruct p as [|d p].
      * left. by exists q.
      * right. exists p, q. by inversion Hq.
Qed.

(** C9, amended: when the first ["//"] of the URL is followed, with no dot
    before it or in between, by a text [mid] and a dot, [aura_inst_id]
    returns [mid]; so the id of [neo4j+s://<id>.databases.neo4j.io] comes
    back.  Outside this precondition the result is what the slice gives, which
    may or may not be the id.  If the first dot comes before the first ["//"],
    it is empty.  If there is no dot, the slice ends one character before the
    end: the result is what follows the first ["//"] without its last
    character (and empty when nothing follows).  If there is no ["//"], the
    slice starts at the second character: the result is what precedes the
    first dot without its first character (and empty when the dot comes
    first).  If there is neither, the result is the string without its first
    and its last character (and empty when it has fewer than two). *)
Theorem aura_inst_id_spec (pre mid rest : string) :
  contains (pre ++ "/") "//" = false ->
  contains (pre ++ "//" ++ mid) "." = false ->
  aura_inst_id (pre ++ "//" ++ mid ++ "." ++ rest) = mid /\
  (forall id, contains id "." = false ->
     aura_inst_id ("neo4j+s://" ++ id ++ ".databases.neo4j.io") = id) /\
  (forall a b t,
     contains a "." = false ->
     contains (a ++ "." ++ b ++ "/") "//" = false ->
     aura_inst_id (a ++ "." ++ b ++ "//" ++ t) = "") /\
  (forall p m c,
     contains (p ++ "/") "//" = false ->
     contains (p ++ "//" ++ m ++ String c "") "." = false ->
     aura_inst_id (p ++ "//" ++ m ++ String c "") = m) /\
  (forall c m t,
     contains (String c m ++ "." ++ t) "//" = false ->
     contains (String c m) "." = false ->
     aura_inst_id (String c m ++ "." ++ t) = m) /\
  (forall p,
     contains (p ++ "/") "//" = false ->
     contains (p ++ "//") "." = false ->
     aura_inst_id (p ++ "//") = "") /\
  (forall t,
     contains ("." ++ t) "//" = false ->
     aura_inst_id ("." ++ t) = "") /\
  (forall a m b,
     contains (String a (m ++ String b "")) "//" = false ->
     contains (String a (m ++ String b "")) "." = false ->
     aura_inst_id (String a (m ++ String b "")) = m) /\
  (forall url,
     (String.length url <= 1)%nat ->
     contains url "//" = false -> contains url "." = false ->
     aura_inst_id url = "").
Proof.
  intros Hs Hd. split; [by apply aura_inst_id_between|].
  split; [|split; [|split; [|split; [|split; [|split; [|split]]]]]].
  - intros id Hid.
    apply (aura_inst_id_between "neo4j+s:" id "databases.neo4j.io"); [reflexivity|].
    exact Hid.
  - intros a b t. apply aura_inst_id_dot_first.
  - intros p m c. apply aura_inst_id_no_dot.
  - intros c m t. apply aura_inst_id_no_slashes.
  - intros p. apply aura_inst_id_no_dot_empty.
  - intros t. apply aura_inst_id_no_slashes_empty.
  - intros a m b. apply aura_inst_id_no_marker.
  - intros url. apply aura_inst_id_short.
Qed.

(** The id of a well-formed connection URL, and URLs outside the
    precondition: with a dot first, without a dot (the id cut short, and the
    id returned whole when a slash follows it), without slashes, and with
    neither. *)
Lemma aura_inst_id_spec_witness :
  aura_inst_id "neo4j+s://2bxxxxxx.databases.neo4j.io" = "2bxxxxxx" /\
  aura_inst_id "my.host//2bxxxxxx.databases.neo4j.io" = "" /\
  aura_inst_id "neo4j+s://2bxxxxxx" = "2bxxxxx" /\
  aura_inst_id "neo4j+s://2bxxxxxx/" = "2bxxxxxx" /\
  aura_inst_id "2bxxxxxx.databases.neo4j.io" = "bxxxxxx" /\
  aura_inst_id "abc" = "b".
Proof.
  destruct (aura_inst_id_spec "neo4j+s:" "2bxxxxxx" "databases.neo4j.io" eq_refl eq_refl)
    as (Hmid & _ & Hdot & Hnodot & Hnoslash & _ & _ & Hneither & _).
  split; [exact Hmid|]. split; [|split; [|split; [|split]]].
  - exact (Hdot "my" "host" "2bxxxxxx.databases.neo4j.io" eq_refl eq_refl).
  - exact (Hnodot "neo4j+s:" "2bxxxxx" "x"%char eq_refl eq_refl).
  - exact (Hnodot "neo4j+s:" "2bxxxxxx" "/"%char eq_refl eq_refl).
  - exact (Hnoslash "2"%char "bxxxxxx" "databases.neo4j.io" eq_refl eq_refl).
  - exact (Hneither "a"%char "b" "c"%char eq_refl eq_refl).
Defined.

(** C9, as stated, fails in its last sentence: this URL has no dot, so one
    of the two markers is absent, and the result is the instance id all the
    same, because the character the slice cuts off is the slash after it. *)
Lemma aura_inst_id_without_dot_is_id :
  contains "neo4j+s://2bxxxxxx/" "." = false /\
  contains "neo4j+s://2bxxxxxx/" "//" = true /\
  aura_inst_id "neo4j+s://2bxxxxxx/" = "2bxxxxxx" /\
  aura_inst_id "neo4j+s://2bxxxxxx.databases.neo4j.io" = "2bxxxxxx".
Proof. repeat split; vm_compute; reflexivity. Qed.

(** ** Runs of the primitives *)

Lemma dict_get_field E w l k v :
  field w l k = Some v -> dict_get l k E w = (Done v, w).
Proof.
  unfold field, dict_get, getitem. intros H.
  destruct (heap w !! l) as [d|]; [|discriminate]. by rewrite H.
Qed.

Lemma dict_get_inv E w l k v w' :
  dict_get l k E w = (Done v, w') -> field w l k = Some v /\ w' = w.
Proof.
  unfold field, dict_get, getitem, ret, raise. intros H.
  destruct (heap w !! l) as [d|]; [|discriminate].
  destruct (d !! k); inversion H; by subst.
Qed.

Lemma bind_run {A B} (m : M A) (f : A -> M B) E w a w1 :
  m E w = (Done a, w1) -> bind m f E w = f a E w1.
Proof. unfold bind. by intros ->. Qed.

Lemma bind_inv {A B} (m : M A) (f : A -> M B) E w b w' :
  bind m f E w = (Done b, w') ->
  exists a w1, m E w = (Done a, w1) /\ f a E w1 = (Done b, w').
Proof.
  unfold bind. destruct (m E w) as [[a|e|] w1]; try discriminate.
  intros H. by exists a, w1.
Qed.

Lemma bind_assoc {A B C} (m : M A) (f : A -> M B) (g : B -> M C) E w :
  bind (bind m f) g E w = bind m (fun a => bind (f a) g) E w.
Proof. unfold bind. by destruct (m E w) as [[a|e|] w1]. Qed.

Lemma requests_of_app t1 t2 :
  requests_of (t1 ++ t2) = (requests_of t1 ++ requests_of t2)%list.
Proof. apply List.filter_app. Qed.

Lemma posts_of_app t1 t2 :
  posts_of (t1 ++ t2) = (posts_of t1 ++ posts_of t2)%list.
Proof. apply List.filter_app. Qed.

(** Console writes and sleeps are not requests. *)
Lemma requests_of_log e w :
  is_request e = false -> requests_of (trace (log e w)) = requests_of (trace w).
Proof.
  intros He. simpl. rewrite requests_of_app. simpl. rewrite He. apply app_nil_r.
Qed.

Lemma only_status_changed_refl w l : only_status_changed w w l.
Proof. by intros l' k _. Qed.

Lemma only_status_changed_trans w1 w2 w3 l :
  only_status_changed w1 w2 l -> only_status_changed w2 w3 l ->
  only_status_changed w1 w3 l.
Proof. intros H12 H23 l' k Hk. by rewrite H23, H12. Qed.

Lemma refreshed_only_status E w l m url h s :
  heap w !! l = Some m -> only_status_changed w (refreshed E w l m url h s) l.
Proof.
  intros Hl l' k Hk. unfold field, refreshed. simpl.
  destruct (decide (l' = l)) as [->|Hne].
  - rewrite lookup_insert_eq, Hl. destruct Hk as [?|[Hs Hi]]; [done|].
    by rewrite !lookup_insert_ne.
  - by rewrite lookup_insert_ne.
Qed.

Lemma refreshed_status E w l m url h s :
  field (refreshed E w l m url h s) l "status" = Some s.
Proof.
  unfold field, refreshed. simpl. rewrite lookup_insert_eq.
  rewrite lookup_insert_ne by done. by rewrite lookup_insert_eq.
Qed.

(** What a successful status check leaves behind, without the heap spelled out. *)
Lemma aura_inst_state_fields E w l api id h d s :
  field w l "aura_api" = Some (VStr api) ->
  field w l "id" = Some (VStr id) ->
  field w l "headers" = Some h ->
  net E (requests w) = Data d ->
  d !! "status" = Some s ->
  exists w',
    aura_inst_state l E w = (Done l, w') /\
    trace w' = (trace w ++ [EGet (api ++ id) h])%list /\
    requests w' = S (requests w) /\
    ticks w' = S (ticks w) /\
    field w' l "status" = Some s /\
    only_status_changed w w' l.
Proof.
  unfold field at 1 2 3. intros Ha Hi Hh Hn Hs.
  destruct (heap w !! l) as [m|] eqn:Hl; [|discriminate].
  exists (refreshed E w l m (api ++ id) h s).
  split; [by apply aura_inst_state_run with d|].
  split; [reflexivity|]. split; [reflexivity|]. split; [reflexivity|].
  split; [apply refreshed_status | by apply refreshed_only_status].
Qed.

(** ** The polling loop *)

Lemma poll_until_reaches E new_state l api id h :
  forall (k fuel : nat) (w : world),
    (k < fuel)%nat ->
    field w l "aura_api" = Some (VStr api) ->
    field w l "id" = Some (VStr id) ->
    field w l "headers" = Some h ->
    (forall i, (i < k)%nat -> exists d s,
        net E (requests w + i)%nat = Data d /\ d !! "status" = Some s /\ s <> new_state) ->
    (exists d, net E (requests w + k)%nat = Data d /\ d !! "status" = Some new_state) ->
    exists w',
      poll_until fuel new_state l E w = (Done tt, w') /\
      trace w' = (trace w ++ concat (replicate k (poll_again (api ++ id) h))
                          ++ [EGet (api ++ id) h])%list /\
      requests w' = (requests w + S k)%nat /\
      ticks w' = (ticks w + S k)%nat /\
      field w' l "status" = Some new_state /\
      only_status_changed w w' l.
Proof.
  induction k as [|k IH]; intros fuel w Hlt Ha Hi Hh Hbefore [d [Hn Hs]].
  - destruct fuel as [|fuel]; [lia|].
    rewrite Nat.add_0_r in Hn.
    destruct (aura_inst_state_fields E w l api id h d new_state Ha Hi Hh Hn Hs)
      as (w1 & Hrun & Ht & Hr & Hc & Hst & Hfr).
    exists w1. cbn [poll_until].
    rewrite (bind_run _ _ _ _ _ _ Hrun).
    rewrite (bind_run _ _ _ _ _ _ (dict_get_field E w1 l "status" _ Hst)).
    rewrite bool_decide_eq_false_2 by (intros Hne; by apply Hne).
    split; [reflexivity|]. split; [by rewrite Ht|].
    split; [lia|]. split; [lia|]. by split.
  - destruct fuel as [|fuel]; [lia|].
    destruct (Hbefore 0%nat ltac:(lia)) as (d0 & s0 & Hn0 & Hs0 & Hne).
    rewrite Nat.add_0_r in Hn0.
    destruct (aura_inst_state_fields E w l api id h d0 s0 Ha Hi Hh Hn0 Hs0)
      as (w1 & Hrun & Ht & Hr & Hc & Hst & Hfr).
    set (w2 := log (ESleep 5) (log (EPrint ".") w1)).
    destruct (IH fuel w2) as (w' & Hrun' & Ht' & Hr' & Hc' & Hst' & Hfr').
    + lia.
    + change (field w1 l "aura_api" = Some (VStr api)). by rewrite Hfr by (right; done).
    + change (field w1 l "id" = Some (VStr id)). by rewrite Hfr by (right; done).
    + change (field w1 l "headers" = Some h). by rewrite Hfr by (right; done).
    + intros i Hi'. destruct (Hbefore (S i) ltac:(lia)) as (di & si & Hni & Hsi & Hnei).
      exists di, si. split; [|by split].
      rewrite <- Hni. f_equal. simpl. lia.
    + exists d. split; [|exact Hs]. rewrite <- Hn. f_equal. simpl. lia.
    + exists w'. cbn [poll_until].
      rewrite (bind_run _ _ _ _ _ _ Hrun).
      rewrite (bind_run _ _ _ _ _ _ (dict_get_field E w1 l "status" _ Hst)).
      rewrite bool_decide_eq_true_2 by (intros Heq; by apply Hne).
      split; [exact Hrun'|].
      split.
      { rewrite Ht'. simpl. rewrite Ht. by rewrite <- !app_assoc. }
      split; [simpl in Hr'; lia|]. split; [simpl in Hc'; lia|].
      split; [exact Hst'|].
      apply only_status_changed_trans with w1; [exact Hfr|].
      intros l' k' Hk. by rewrite Hfr'.
Qed.

Lemma refreshed_in_sync E w l m url h d s :
  net E (requests w) = Data d -> d !! "status" = Some s ->
  status_in_sync E (refreshed E w l m url h s) l.
Proof.
  intros Hn Hs. unfold status_in_sync. rewrite refreshed_status.
  split; [by eexists|]. split.
  - unfold last_reply_status. simpl. by rewrite Hn.
  - exists url, h. simpl. rewrite requests_of_app. simpl. apply last_snoc.
Qed.

Lemma aura_inst_state_no_timeout E w l w' :
  aura_inst_state l E w <> (Timeout, w').
Proof.
  intros H. unfold aura_inst_state in H. unfold_prims. simpl in H.
  repeat run_step.
Qed.

(** Prints and sleeps between two polls change neither the heap nor the
    count of requests. *)
Lemma status_in_sync_ext E w w' l :
  heap w' = heap w -> requests w' = requests w ->
  requests_of (trace w') = requests_of (trace w) ->
  status_in_sync E w l -> status_in_sync E w' l.
Proof.
  unfold status_in_sync, field, last_reply_status. by intros -> -> ->.
Qed.

Lemma status_in_sync_log E e w l :
  is_request e = false -> status_in_sync E w l -> status_in_sync E (log e w) l.
Proof.
  intros He. apply status_in_sync_ext; [reflexivity|reflexivity|].
  by apply requests_of_log.
Qed.

Lemma status_in_sync_tick E w l :
  status_in_sync E w l -> status_in_sync E (tick w) l.
Proof. by apply status_in_sync_ext. Qed.

(** The loop returns only on a poll that fetched the target. *)
Lemma poll_until_done E new_state l :
  forall fuel w w',
    poll_until fuel new_state l E w = (Done tt, w') ->
    field w' l "status" = Some new_state /\
    last_reply_status E w' = Some new_state.
Proof.
  induction fuel as [|fuel IH]; intros w w' H; [discriminate|].
  cbn [poll_until] in H.
  apply bind_inv in H as (r & w1 & Hrun & H).
  apply aura_inst_state_inv in Hrun
    as (m & api & id & h & d & s & Hl & _ & _ & _ & Hn & Hs & -> & ->).
  apply bind_inv in H as (st & w2 & Hget & H).
  apply dict_get_inv in Hget as [Hst ->].
  rewrite refreshed_status in Hst. injection Hst as <-.
  destruct (bool_decide (new_state <> s)) eqn:Hb.
  - apply IH in H. exact H.
  - apply bool_decide_eq_false in Hb.
    assert (new_state = s) as <- by (destruct (decide (new_state = s)); done).
    injection H as <-.
    destruct (refreshed_in_sync E w l m (api ++ id) h d new_state Hn Hs) as (_ & Hsync & _).
    rewrite refreshed_status in *. by split.
Qed.

(** After any number of completed turns the ['status'] field is the status
    of the last reply. *)
Lemma poll_until_sync E new_state l :
  forall fuel w o w',
    (0 < fuel)%nat ->
    poll_until fuel new_state l E w = (o, w') ->
    (forall e, o <> Raised e) ->
    status_in_sync E w' l.
Proof.
  induction fuel as [|fuel IH]; intros w o w' Hpos H Hno; [lia|].
  cbn [poll_until] in H. unfold bind at 1 in H.
  destruct (aura_inst_state l E w) as [[r|e|] w1] eqn:Hrun.
  - apply aura_inst_state_inv in Hrun
      as (m & api & id & h & d & s & Hl & _ & _ & _ & Hn & Hs & -> & ->).
    pose proof (refreshed_in_sync E w l m (api ++ id) h d s Hn Hs) as Hsync.
    unfold bind at 1 in H.
    rewrite (dict_get_field E _ l "status" s (refreshed_status _ _ _ _ _ _ _)) in H.
    destruct (bool_decide (new_state <> s)).
    + destruct fuel as [|fuel].
      * injection H as <- <-. by do 2 (apply status_in_sync_log; [reflexivity|]).
      * eapply IH; [lia|exact H|exact Hno].
    + injection H as <- <-. exact Hsync.
  - injection H as <- <-. by destruct (Hno e).
  - by apply aura_inst_state_no_timeout in Hrun.
Qed.

(** When no reply ever carries the target, the loop uses up any fuel. *)
Lemma poll_until_never E new_state l api id h :
  forall (fuel : nat) (w : world),
    field w l "aura_api" = Some (VStr api) ->
    field w l "id" = Some (VStr id) ->
    field w l "headers" = Some h ->
    (forall i, exists d s,
        net E (requests w + i)%nat = Data d /\ d !! "status" = Some s /\ s <> new_state) ->
    exists w',
      poll_until fuel new_state l E w = (Timeout, w') /\
      trace w' = (trace w ++ concat (replicate fuel (poll_again (api ++ id) h)))%list /\
      requests w' = (requests w + fuel)%nat.
Proof.
  induction fuel as [|fuel IH]; intros w Ha Hi Hh Hall.
  - exists w. split; [reflexivity|]. simpl. rewrite app_nil_r. split; [done|lia].
  - destruct (Hall 0%nat) as (d0 & s0 & Hn0 & Hs0 & Hne).
    rewrite Nat.add_0_r in Hn0.
    destruct (aura_inst_state_fields E w l api id h d0 s0 Ha Hi Hh Hn0 Hs0)
      as (w1 & Hrun & Ht & Hr & Hc & Hst & Hfr).
    set (w2 := log (ESleep 5) (log (EPrint ".") w1)).
    destruct (IH w2) as (w' & Hrun' & Ht' & Hr').
    + change (field w1 l "aura_api" = Some (VStr api)). by rewrite Hfr by (right; done).
    + change (field w1 l "id" = Some (VStr id)). by rewrite Hfr by (right; done).
    + change (field w1 l "headers" = Some h). by rewrite Hfr by (right; done).
    + intros i. destruct (Hall (S i)) as (di & si & Hni & Hsi & Hnei).
      exists di, si. split; [|by split].
      rewrite <- Hni. f_equal. simpl. lia.
    + exists w'. cbn [poll_until].
      rewrite (bind_run _ _ _ _ _ _ Hrun).
      rewrite (bind_run _ _ _ _ _ _ (dict_get_field E w1 l "status" _ Hst)).
      rewrite bool_decide_eq_true_2 by (intros Heq; by apply Hne).
      split; [exact Hrun'|].
      split; [|simpl in Hr'; lia].
      rewrite Ht'. simpl. rewrite Ht. by rewrite <- !app_assoc.
Qed.

(** ** Changing the state *)

Lemma requests_of_polls url h k :
  requests_of (concat (replicate k (poll_again url h))) = replicate k (EGet url h).
Proof. induction k as [|k IH]; [reflexivity|]. simpl. by rewrite IH. Qed.


Lemma send_run E w e :
  net E (requests w) <> NetErr -> send e E w = (Done (net E (requests w)), sent e w).
Proof. unfold send. by destruct (net E (requests w)). Qed.

(** Running a sequence one call at a time. *)
Ltac step_get H :=
  match goal with
  | |- context [bind (dict_get ?l ?k) _ ?E ?w] =>
      rewrite (bind_run (dict_get l k) _ E w _ w (dict_get_field E w l k _ H))
  end.

Ltac step_pure :=
  match goal with
  | |- context [bind ?m _ ?E ?w] =>
      rewrite (bind_run m _ E w _ _ eq_refl)
  end.

Lemma aura_change_state_reaches E new_state inst_action l api id h name cur k fuel w :
  (k < fuel)%nat ->
  field w l "aura_api" = Some (VStr api) ->
  field w l "id" = Some (VStr id) ->
  field w l "headers" = Some h ->
  field w l "name" = Some name ->
  field w l "status" = Some cur ->
  net E (requests w) <> NetErr ->
  (forall i, (i < k)%nat -> exists d s,
      net E (S (requests w) + i)%nat = Data d /\ d !! "status" = Some s /\ s <> new_state) ->
  (exists d, net E (S (requests w) + k)%nat = Data d /\ d !! "status" = Some new_state) ->
  exists w',
    aura_change_state fuel new_state inst_action l E w = (Done tt, w') /\
    requests_of (trace w') =
      (requests_of (trace w)
       ++ [EPost (api ++ id ++ "/" ++ inst_action) None None (Some h)]
       ++ replicate (S k) (EGet (api ++ id) h))%list /\
    field w' l "status" = Some new_state /\
    only_status_changed w w' l.
Proof.
  intros Hlt Ha Hi Hh Hname Hcur Hpost Hbefore Hat.
  unfold aura_change_state.
  step_pure. step_get Hname. step_get Hi. step_get Hcur. step_pure.
  step_get Ha. step_get Hi. do 4 step_pure. step_get Hh.
  match goal with
  | |- context [bind (requests_post ?u None None (Some h)) _ E ?w2] =>
      set (post := EPost u None None (Some h));
      rewrite (bind_run _ _ E w2 _ _ (send_run E w2 post Hpost));
      set (w3 := sent post w2)
  end.
  destruct (poll_until_reaches E new_state l api id h k fuel w3)
    as (w4 & Hrun & Ht & _ & _ & Hst & Hfr); try assumption.
  rewrite (bind_run _ _ _ _ _ _ Hrun).
  assert (Hname4 : field (tick w4) l "name" = Some name).
  { change (field w4 l "name" = Some name). rewrite Hfr by (right; done). exact Hname. }
  assert (Hi4 : field (tick w4) l "id" = Some (VStr id)).
  { change (field w4 l "id" = Some (VStr id)). rewrite Hfr by (right; done). exact Hi. }
  step_pure. step_get Hname4. step_get Hi4. step_pure.
  destruct (elapsed_hms (clock E (ticks w)) (clock E (ticks w4))) as [[hh mm] ss].
  step_pure. eexists. split; [reflexivity|].
  split; [|split].
  - simpl. rewrite !requests_of_app. simpl. rewrite !app_nil_r.
    rewrite Ht. rewrite !requests_of_app, requests_of_polls. simpl.
    rewrite !requests_of_app. simpl. rewrite !app_nil_r.
    subst post. rewrite !append_assoc. rewrite <- !app_assoc. simpl.
    do 2 f_equal. clear. induction k as [|k IH]; [reflexivity|]. simpl. by rewrite IH.
  - exact Hst.
  - intros l' k' Hk. change (field w4 l' k' = field w l' k'). by rewrite Hfr.
Qed.

(** A return of [aura_change_state] is a return of its loop. *)
Lemma aura_change_state_done E new_state inst_action l fuel w w' :
  aura_change_state fuel new_state inst_action l E w = (Done tt, w') ->
  field w' l "status" = Some new_state /\ last_reply_status E w' = Some new_state.
Proof.
  intros H. unfold aura_change_state in H.
  do 13 (apply bind_inv in H as (? & ? & _ & H)).
  apply bind_inv in H as (? & w4 & Hloop & H).
  match type of Hloop with _ = (Done ?u, _) => destruct u end.
  apply poll_until_done in Hloop as [Hst Hlast].
  apply bind_inv in H as (t & w5 & Hnow & H). injection Hnow as <- <-.
  apply bind_inv in H as (? & ? & Hg & H). apply dict_get_inv in Hg as [_ ->].
  apply bind_inv in H as (? & ? & Hg & H). apply dict_get_inv in Hg as [_ ->].
  apply bind_inv in H as (? & ? & Hp & H). inversion Hp; subst; clear Hp.
  destruct (elapsed_hms _ _) as [[hh mm] ss].
  apply bind_inv in H as (? & ? & Hp & H). inversion Hp; subst; clear Hp.
  inversion H; subst; clear H. by split.
Qed.

(** With replies that never carry the target, [aura_change_state] is still
    polling when the fuel runs out, whatever the fuel. *)
Lemma aura_change_state_never E new_state inst_action l api id h name cur fuel w :
  field w l "aura_api" = Some (VStr api) ->
  field w l "id" = Some (VStr id) ->
  field w l "headers" = Some h ->
  field w l "name" = Some name ->
  field w l "status" = Some cur ->
  net E (requests w) <> NetErr ->
  (forall i, exists d s,
      net E (S (requests w) + i)%nat = Data d /\ d !! "status" = Some s /\ s <> new_state) ->
  exists w',
    aura_change_state fuel new_state inst_action l E w = (Timeout, w') /\
    requests_of (trace w') =
      (requests_of (trace w)
       ++ [EPost (api ++ id ++ "/" ++ inst_action) None None (Some h)]
       ++ replicate fuel (EGet (api ++ id) h))%list.
Proof.
  intros Ha Hi Hh Hname Hcur Hpost Hall.
  unfold aura_change_state.
  step_pure. step_get Hname. step_get Hi. step_get Hcur. step_pure.
  step_get Ha. step_get Hi. do 4 step_pure. step_get Hh.
  match goal with
  | |- context [bind (requests_post ?u None None (Some h)) _ E ?w2] =>
      set (post := EPost u None None (Some h));
      rewrite (bind_run _ _ E w2 _ _ (send_run E w2 post Hpost));
      set (w3 := sent post w2)
  end.
  destruct (poll_until_never E new_state l api id h fuel w3)
    as (w4 & Hrun & Ht & _); try assumption.
  exists w4. unfold bind at 1. rewrite Hrun. split; [reflexivity|].
  rewrite Ht. rewrite !requests_of_app, requests_of_polls. simpl.
  rewrite !requests_of_app. simpl. rewrite !app_nil_r.
  subst post. rewrite !append_assoc. by rewrite <- !app_assoc.
Qed.

(** ** Requesting a change *)

Lemma aura_request_state_change_after_refresh E fuel new_state l w w1 s :
  aura_inst_state l E w = (Done l, w1) ->
  field w1 l "status" = Some s ->
  aura_request_state_change fuel new_state l E w = after_refresh fuel new_state s l E w1.
Proof.
  intros Hrun Hst. unfold aura_request_state_change, after_refresh.
  rewrite (bind_run _ _ _ _ _ _ Hrun). step_get Hst.
  destruct (bool_decide (s = new_state)); [reflexivity|].
  destruct (bool_decide (new_state = VStr "running")).
  - rewrite bind_assoc. step_get Hst. step_pure. rewrite andb_true_l.
    destruct (bool_decide (s = VStr "paused")); [reflexivity|].
    destruct (bool_decide (new_state = VStr "paused")).
    + rewrite bind_assoc. step_get Hst. step_pure. reflexivity.
    + step_pure. reflexivity.
  - step_pure. rewrite andb_false_l.
    destruct (bool_decide (new_state = VStr "paused")).
    + rewrite bind_assoc. step_get Hst. step_pure. reflexivity.
    + step_pure. reflexivity.
Qed.

Lemma posts_of_requests_of t : posts_of (requests_of t) = posts_of t.
Proof.
  induction t as [|e t IH]; [reflexivity|].
  destruct e; simpl; by rewrite ?IH.
Qed.

Lemma posts_of_gets url h n : posts_of (replicate n (EGet url h)) = [].
Proof. induction n as [|n IH]; [reflexivity|]. exact IH. Qed.

(** For the two supported transitions, what follows the refresh is
    [aura_change_state] with the matching action. *)
Lemma after_refresh_transition fuel cur new_state inst_action l :
  (cur = "paused" /\ new_state = "running" /\ inst_action = "resume") \/
  (cur = "running" /\ new_state = "paused" /\ inst_action = "pause") ->
  after_refresh fuel (VStr new_state) (VStr cur) l
  = aura_change_state fuel (VStr new_state) inst_action l.
Proof. by intros [(-> & -> & ->) | (-> & -> & ->)]. Qed.

(** C1: for paused to running (and running to paused), when the refresh
    fetches the current status and the POST goes through,
    [aura_request_state_change] sends, after its refresh, exactly one POST,
    to [aura_api + id + "/resume"] (or ["/pause"]), and then only status GETs:
    [k + 1] of them when the [k + 1]-th reply is the first to carry the target
    (and the call then returns with the target in ['status']), and one per
    unit of fuel when no reply ever carries it. *)
Theorem state_change_posts_once E l api id h name cur new_state inst_action w :
  (cur = "paused" /\ new_state = "running" /\ inst_action = "resume") \/
  (cur = "running" /\ new_state = "paused" /\ inst_action = "pause") ->
  field w l "aura_api" = Some (VStr api) ->
  field w l "id" = Some (VStr id) ->
  field w l "headers" = Some h ->
  field w l "name" = Some name ->
  (exists d, net E (requests w) = Data d /\ d !! "status" = Some (VStr cur)) ->
  net E (S (requests w)) <> NetErr ->
  (forall k fuel,
     (k < fuel)%nat ->
     (forall i, (i < k)%nat -> exists d s,
         net E (S (S (requests w)) + i)%nat = Data d /\ d !! "status" = Some s
         /\ s <> VStr new_state) ->
     (exists d, net E (S (S (requests w)) + k)%nat = Data d
                /\ d !! "status" = Some (VStr new_state)) ->
     exists w',
       aura_request_state_change fuel (VStr new_state) l E w = (Done tt, w') /\
       requests_of (trace w') =
         (requests_of (trace w)
          ++ [EGet (api ++ id) h;
              EPost (api ++ id ++ "/" ++ inst_action) None None (Some h)]
          ++ replicate (S k) (EGet (api ++ id) h))%list /\
       posts_of (trace w') =
         (posts_of (trace w)
          ++ [EPost (api ++ id ++ "/" ++ inst_action) None None (Some h)])%list /\
       field w' l "status" = Some (VStr new_state)) /\
  (forall fuel,
     (forall i, exists d s,
         net E (S (S (requests w)) + i)%nat = Data d /\ d !! "status" = Some s
         /\ s <> VStr new_state) ->
     exists w',
       aura_request_state_change fuel (VStr new_state) l E w = (Timeout, w') /\
       requests_of (trace w') =
         (requests_of (trace w)
          ++ [EGet (api ++ id) h;
              EPost (api ++ id ++ "/" ++ inst_action) None None (Some h)]
          ++ replicate fuel (EGet (api ++ id) h))%list /\
       posts_of (trace w') =
         (posts_of (trace w)
          ++ [EPost (api ++ id ++ "/" ++ inst_action) None None (Some h)])%list).
Proof.
  intros Htr Ha Hi Hh Hname [d [Hn Hs]] Hpost.
  destruct (aura_inst_state_fields E w l api id h d (VStr cur) Ha Hi Hh Hn Hs)
    as (w1 & Hrun & Ht & Hr & _ & Hst & Hfr).
  assert (Ha1 : field w1 l "aura_api" = Some (VStr api)) by (by rewrite Hfr by (right; done)).
  assert (Hi1 : field w1 l "id" = Some (VStr id)) by (by rewrite Hfr by (right; done)).
  assert (Hh1 : field w1 l "headers" = Some h) by (by rewrite Hfr by (right; done)).
  assert (Hname1 : field w1 l "name" = Some name) by (by rewrite Hfr by (right; done)).
  assert (Hpost1 : net E (requests w1) <> NetErr) by (by rewrite Hr).
  split.
  - intros k fuel Hlt Hbefore Hat.
    rewrite (aura_request_state_change_after_refresh E fuel _ l w w1 _ Hrun Hst).
    rewrite (after_refresh_transition fuel cur new_state inst_action l Htr).
    destruct (aura_change_state_reaches E (VStr new_state) inst_action l api id h name
                (VStr cur) k fuel w1) as (w' & Hrun' & Hreq & Hst' & _);
      try assumption; try (by rewrite Hr).
    exists w'. split; [exact Hrun'|].
    assert (Hreq' : requests_of (trace w') =
         (requests_of (trace w)
          ++ [EGet (api ++ id) h;
              EPost (api ++ id ++ "/" ++ inst_action) None None (Some h)]
          ++ replicate (S k) (EGet (api ++ id) h))%list).
    { rewrite Hreq, Ht, requests_of_app. simpl. by rewrite <- !app_assoc. }
    split; [exact Hreq'|]. split; [|exact Hst'].
    rewrite <- (posts_of_requests_of (trace w')), Hreq', !posts_of_app.
    rewrite posts_of_requests_of. simpl. by rewrite posts_of_gets.
  - intros fuel Hall.
    rewrite (aura_request_state_change_after_refresh E fuel _ l w w1 _ Hrun Hst).
    rewrite (after_refresh_transition fuel cur new_state inst_action l Htr).
    destruct (aura_change_state_never E (VStr new_state) inst_action l api id h name
                (VStr cur) fuel w1) as (w' & Hrun' & Hreq);
      try assumption; try (by rewrite Hr).
    exists w'. split; [exact Hrun'|].
    assert (Hreq' : requests_of (trace w') =
         (requests_of (trace w)
          ++ [EGet (api ++ id) h;
              EPost (api ++ id ++ "/" ++ inst_action) None None (Some h)]
          ++ replicate fuel (EGet (api ++ id) h))%list).
    { rewrite Hreq, Ht, requests_of_app. simpl. by rewrite <- !app_assoc. }
    split; [exact Hreq'|].
    rewrite <- (posts_of_requests_of (trace w')), Hreq', !posts_of_app.
    rewrite posts_of_requests_of. simpl. by rewrite posts_of_gets.
Qed.

(** ** Frames *)

(** Whatever its outcome, [aura_inst_state] touches two keys of one
    dictionary, and what it returns is its argument. *)
Lemma aura_inst_state_any E w l o w' :
  aura_inst_state l E w = (o, w') ->
  only_status_changed w w' l /\ (forall r, o = Done r -> r = l).
Proof.
  intros H.
  destruct o as [r|e|].
  - apply aura_inst_state_inv in H
      as (m & api & id & h & d & s & Hl & _ & _ & _ & _ & _ & -> & ->).
    split; [by apply refreshed_only_status | by intros r' [= <-]].
  - split; [|discriminate].
    unfold aura_inst_state in H. unfold_prims. simpl in H.
    repeat run_step; try (by intros ? ? ?).
    all: rewrite lookup_insert_eq in *; discriminate.
  - by apply aura_inst_state_no_timeout in H.
Qed.

(** C8: on a dictionary that has the ['aura_api'], ['id'] and ['headers']
    keys, [aura_inst_state] leaves every key other than ['status'] and
    ['info_updated'] (and every other object) as it was, whatever its
    outcome; when it returns, it returns the reference it was given, with
    those two keys written in place; and it does return when the two URL
    parts are strings and the API answers with a status. *)
Theorem aura_inst_state_frame E w l m api id h :
  heap w !! l = Some m ->
  m !! "aura_api" = Some api ->
  m !! "id" = Some id ->
  m !! "headers" = Some h ->
  let '(o, w') := aura_inst_state l E w in
  only_status_changed w w' l /\
  (forall r, o = Done r ->
     r = l /\
     exists s, heap w' =
       <[l := <["info_updated" := VStr (isoformat E (clock E (ticks w)))]>
                (<["status" := s]> m)]> (heap w)) /\
  (forall a i d s,
     api = VStr a -> id = VStr i ->
     net E (requests w) = Data d -> d !! "status" = Some s ->
     o = Done l).
Proof.
  intros Hl Ha Hi Hh.
  destruct (aura_inst_state l E w) as [o w'] eqn:Hrun.
  split; [exact (proj1 (aura_inst_state_any E w l o w' Hrun))|]. split.
  - intros r ->.
    apply aura_inst_state_inv in Hrun
      as (m' & a & i & h' & d & s & Hl' & _ & _ & _ & _ & _ & -> & ->).
    split; [reflexivity|]. exists s. rewrite Hl in Hl'. by injection Hl' as <-.
  - intros a i d s -> -> Hn Hs.
    rewrite (aura_inst_state_run E w l m a i h d s Hl Ha Hi Hh Hn Hs) in Hrun.
    by injection Hrun as <- _.
Qed.

Lemma aura_inst_state_frame_witness :
  let E := ex_env [status_reply "pausing"] Other in
  let w := ex_world "running" in
  let '(o, w') := aura_inst_state 0%nat E w in
  only_status_changed w w' 0%nat /\
  (forall r, o = Done r ->
     r = 0%nat /\
     exists s, heap w' =
       <[0%nat := <["info_updated" := VStr (isoformat E (clock E (ticks w)))]>
                (<["status" := s]> (ex_info "running"))]> (heap w)) /\
  (forall a i d s,
     VStr ex_api = VStr a -> VStr "2bxxxxxx" = VStr i ->
     net E (requests w) = Data d -> d !! "status" = Some s ->
     o = Done 0%nat).
Proof.
  exact (aura_inst_state_frame (ex_env [status_reply "pausing"] Other)
           (ex_world "running") 0%nat (ex_info "running")
           (VStr ex_api) (VStr "2bxxxxxx") ex_headers
           eq_refl eq_refl eq_refl eq_refl).
Defined.

(** ** The credentials file *)

(** C7: when the path is [None] or names no existing file,
    [read_neo4j_properties] prints its error message and returns [None]
    instead of the five credentials, and [aura_api_connect], which unpacks that
    result into five names, stops there with a [TypeError], before any
    request is sent. *)
Theorem read_neo4j_properties_missing E w (NEO4J_PROPERTIES_FILE : option string) :
  NEO4J_PROPERTIES_FILE = None \/
  (exists path, NEO4J_PROPERTIES_FILE = Some path /\ fs E !! path = None) ->
  read_neo4j_properties NEO4J_PROPERTIES_FILE E w
    = (Done None, log (EPrint (not_found_msg ++ nl)) w) /\
  aura_api_connect NEO4J_PROPERTIES_FILE E w
    = (Raised TypeError, log (EPrint (not_found_msg ++ nl)) w).
Proof.
  intros Hmissing.
  assert (Hnone : existing_file E NEO4J_PROPERTIES_FILE = None).
  { destruct Hmissing as [-> | (path & -> & Hfs)]; [reflexivity|].
    unfold existing_file. by rewrite Hfs. }
  assert (Hread : read_neo4j_properties NEO4J_PROPERTIES_FILE E w
                  = (Done None, log (EPrint (not_found_msg ++ nl)) w)).
  { unfold read_neo4j_properties. rewrite Hnone. reflexivity. }
  split; [exact Hread|].
  unfold aura_api_connect. rewrite (bind_run _ _ _ _ _ _ Hread). reflexivity.
Qed.

Lemma read_neo4j_properties_missing_witness :
  let E := ex_env [] Other in
  let w := ex_world "running" in
  (read_neo4j_properties None E w = (Done None, log (EPrint (not_found_msg ++ nl)) w) /\
   aura_api_connect None E w = (Raised TypeError, log (EPrint (not_found_msg ++ nl)) w)) /\
  (read_neo4j_properties (Some "neo4jConfig.ini") E w
     = (Done None, log (EPrint (not_found_msg ++ nl)) w) /\
   aura_api_connect (Some "neo4jConfig.ini") E w
     = (Raised TypeError, log (EPrint (not_found_msg ++ nl)) w)).
Proof.
  split.
  - apply (read_neo4j_properties_missing (ex_env [] Other) (ex_world "running") None).
    left. reflexivity.
  - apply (read_neo4j_properties_missing (ex_env [] Other) (ex_world "running")
             (Some "neo4jConfig.ini")).
    right. exists "neo4jConfig.ini". split; reflexivity.
Defined.

(** ** Nothing to do, and requests that are turned down *)

Lemma dict_get_world E w l k o w' : dict_get l k E w = (o, w') -> w' = w.
Proof.
  unfold dict_get, getitem, ret, raise.
  destruct (heap w !! l) as [d|]; [destruct (d !! k)|]; by intros [= _ <-].
Qed.

(** The branch for a status that is the target already: no request, at most
    one line on the console, the heap as the refresh left it. *)
Lemma after_refresh_already E fuel new_state l w1 :
  field w1 l "status" = Some new_state ->
  let '(o, w') := after_refresh fuel new_state new_state l E w1 in
  heap w' = heap w1 /\ requests w' = requests w1 /\
  requests_of (trace w') = requests_of (trace w1) /\
  (forall name id,
     field w1 l "name" = Some name -> field w1 l "id" = Some id ->
     o = Done tt /\
     trace w' = (trace w1 ++ [EPrint (already_msg E name id new_state ++ nl)])%list).
Proof.
  intros Hst. unfold after_refresh.
  rewrite bool_decide_eq_true_2 by reflexivity.
  destruct (field w1 l "name") as [name|] eqn:Hname.
  2:{ unfold bind at 1.
      destruct (dict_get l "name" E w1) as [[v|e|] w2] eqn:Hg.
      - apply dict_get_inv in Hg as [Hg _]. congruence.
      - apply dict_get_world in Hg as ->. by repeat split.
      - apply dict_get_world in Hg as ->. by repeat split. }
  step_get Hname.
  destruct (field w1 l "id") as [id|] eqn:Hid.
  2:{ unfold bind at 1.
      destruct (dict_get l "id" E w1) as [[v|e|] w2] eqn:Hg.
      - apply dict_get_inv in Hg as [Hg _]. congruence.
      - apply dict_get_world in Hg as ->. by repeat split.
      - apply dict_get_world in Hg as ->. by repeat split. }
  step_get Hid. step_get Hst.
  split; [reflexivity|]. split; [reflexivity|]. split.
  - simpl. rewrite requests_of_app. simpl. by rewrite app_nil_r.
  - intros ? ? [= <-] [= <-]. by split.
Qed.

(** C3: when the status fetched by the refresh is the requested target,
    [aura_request_state_change] sends its refresh GET and nothing else: no
    POST; with a ['name'] in the info it returns after printing that the
    instance is already in that state. *)
Theorem already_in_state_no_post E l api id h new_state fuel w :
  field w l "aura_api" = Some (VStr api) ->
  field w l "id" = Some (VStr id) ->
  field w l "headers" = Some h ->
  (exists d, net E (requests w) = Data d /\ d !! "status" = Some new_state) ->
  let '(o, w') := aura_request_state_change fuel new_state l E w in
  posts_of (trace w') = posts_of (trace w) /\
  requests_of (trace w') = (requests_of (trace w) ++ [EGet (api ++ id) h])%list /\
  (forall name, field w l "name" = Some name ->
     o = Done tt /\
     trace w' = (trace w ++ [EGet (api ++ id) h;
                             EPrint (already_msg E name (VStr id) new_state ++ nl)])%list).
Proof.
  intros Ha Hi Hh [d [Hn Hs]].
  destruct (aura_inst_state_fields E w l api id h d new_state Ha Hi Hh Hn Hs)
    as (w1 & Hrun & Ht & _ & _ & Hst & Hfr).
  rewrite (aura_request_state_change_after_refresh E fuel _ l w w1 _ Hrun Hst).
  pose proof (after_refresh_already E fuel new_state l w1 Hst) as Hpost.
  destruct (after_refresh fuel new_state new_state l E w1) as [o w'].
  destruct Hpost as (_ & _ & Hreq & Hname).
  assert (Hreq' : requests_of (trace w')
                  = (requests_of (trace w) ++ [EGet (api ++ id) h])%list).
  { by rewrite Hreq, Ht, requests_of_app. }
  split; [|split; [exact Hreq'|]].
  - rewrite <- (posts_of_requests_of (trace w')), Hreq', posts_of_app.
    rewrite posts_of_requests_of. simpl. by rewrite app_nil_r.
  - intros name Hname0.
    destruct (Hname name (VStr id)) as [-> Htr].
    + by rewrite Hfr by (right; done).
    + by rewrite Hfr by (right; done).
    + split; [reflexivity|]. rewrite Htr, Ht. by rewrite <- app_assoc.
Qed.

Lemma already_in_state_no_post_witness :
  let E := ex_env [status_reply "running"] Other in
  let w := ex_world "paused" in
  let '(o, w') := aura_request_state_change 3 (VStr "running") 0%nat E w in
  posts_of (trace w') = posts_of (trace w) /\
  requests_of (trace w') = (requests_of (trace w) ++ [EGet (ex_api ++ "2bxxxxxx") ex_headers])%list /\
  (forall name, field w 0%nat "name" = Some name ->
     o = Done tt /\
     trace w' = (trace w ++ [EGet (ex_api ++ "2bxxxxxx") ex_headers;
                             EPrint (already_msg E name (VStr "2bxxxxxx") (VStr "running")
                                     ++ nl)])%list).
Proof.
  apply (already_in_state_no_post (ex_env [status_reply "running"] Other) 0%nat
           ex_api "2bxxxxxx" ex_headers (VStr "running") 3 (ex_world "paused"));
    try reflexivity.
  eexists. split; reflexivity.
Defined.

(** C5, amended: when the status fetched by the refresh is the
    requested target, the call leaves in the heap exactly what its refresh
    wrote: the fetched status under ['status'] and the time of the refresh
    under ['info_updated']; every other key, and every other object, is
    unchanged, and no POST is sent. *)
Theorem already_in_state_frame E l m api id h new_state fuel w :
  heap w !! l = Some m ->
  m !! "aura_api" = Some (VStr api) ->
  m !! "id" = Some (VStr id) ->
  m !! "headers" = Some h ->
  (exists d, net E (requests w) = Data d /\ d !! "status" = Some new_state) ->
  let '(o, w') := aura_request_state_change fuel new_state l E w in
  heap w' = <[l := <["info_updated" := VStr (isoformat E (clock E (ticks w)))]>
                     (<["status" := new_state]> m)]> (heap w) /\
  only_status_changed w w' l /\
  posts_of (trace w') = posts_of (trace w).
Proof.
  intros Hl Ha Hi Hh [d [Hn Hs]].
  pose proof (aura_inst_state_run E w l m api id h d new_state Hl Ha Hi Hh Hn Hs) as Hrun.
  pose proof (refreshed_status E w l m (api ++ id) h new_state) as Hst.
  rewrite (aura_request_state_change_after_refresh E fuel _ l w _ _ Hrun Hst).
  pose proof (after_refresh_already E fuel new_state l _ Hst) as Hpost.
  destruct (after_refresh fuel new_state new_state l E _) as [o w'].
  destruct Hpost as (Hheap & _ & Hreq & _).
  split; [by rewrite Hheap|]. split.
  - intros l' k Hk. unfold field at 1. rewrite Hheap.
    by apply (refreshed_only_status E w l m (api ++ id) h new_state).
  - rewrite <- (posts_of_requests_of (trace w')), Hreq. simpl.
    rewrite requests_of_app, posts_of_app, posts_of_requests_of. simpl.
    by rewrite app_nil_r.
Qed.

Lemma already_in_state_frame_witness :
  let E := ex_env [status_reply "running"] Other in
  let w := ex_world "running" in
  let '(o, w') := aura_request_state_change 3 (VStr "running") 0%nat E w in
  heap w' = <[0%nat := <["info_updated" := VStr (isoformat E (clock E (ticks w)))]>
                     (<["status" := VStr "running"]> (ex_info "running"))]> (heap w) /\
  only_status_changed w w' 0%nat /\
  posts_of (trace w') = posts_of (trace w).
Proof.
  apply (already_in_state_frame (ex_env [status_reply "running"] Other) 0%nat
           (ex_info "running") ex_api "2bxxxxxx" ex_headers (VStr "running") 3
           (ex_world "running"));
    try reflexivity.
  eexists. split; reflexivity.
Defined.

(** C5, as stated, fails: the instance is running, the target is running, and
    the call still rewrites ['info_updated'] (from "0" to the time of its
    refresh), so the mapping is not left as it was. *)
Lemma already_in_state_not_noop :
  let E := ex_env [status_reply "running"] Other in
  let w := ex_world "running" in
  let '(o, w') := aura_request_state_change 3 (VStr "running") 0%nat E w in
  field w 0%nat "status" = Some (VStr "running") /\
  o = Done tt /\
  field w 0%nat "info_updated" = Some (VStr "0") /\
  field w' 0%nat "info_updated" = Some (VStr "7") /\
  heap w' !! 0%nat <> heap w !! 0%nat.
Proof.
  vm_compute. repeat split; try reflexivity. discriminate.
Qed.

(** C4, amended: when the fetched status differs from the target
    and the pair is neither paused to running nor running to paused (any
    other status, any other target), [aura_request_state_change] sends its
    refresh GET and nothing else, prints that only those two changes are
    supported, and returns. *)
Theorem other_pairs_rejected E l api id h cur new_state fuel w :
  field w l "aura_api" = Some (VStr api) ->
  field w l "id" = Some (VStr id) ->
  field w l "headers" = Some h ->
  (exists d, net E (requests w) = Data d /\ d !! "status" = Some cur) ->
  cur <> new_state ->
  ~ (cur = VStr "paused" /\ new_state = VStr "running") ->
  ~ (cur = VStr "running" /\ new_state = VStr "paused") ->
  exists w',
    aura_request_state_change fuel new_state l E w = (Done tt, w') /\
    trace w' = (trace w ++ [EGet (api ++ id) h; EPrint (rejection_msg ++ nl)])%list /\
    posts_of (trace w') = posts_of (trace w).
Proof.
  intros Ha Hi Hh [d [Hn Hs]] Hne Hresume Hpause.
  destruct (aura_inst_state_fields E w l api id h d cur Ha Hi Hh Hn Hs)
    as (w1 & Hrun & Ht & _ & _ & Hst & _).
  rewrite (aura_request_state_change_after_refresh E fuel _ l w w1 _ Hrun Hst).
  unfold after_refresh.
  rewrite bool_decide_eq_false_2 by exact Hne.
  assert (Hr : bool_decide (new_state = VStr "running")
               && bool_decide (cur = VStr "paused") = false).
  { apply andb_false_iff.
    destruct (decide (new_state = VStr "running")) as [Hn1|Hn1];
      [right | left]; apply bool_decide_eq_false_2; [|exact Hn1].
    intros Hc. by apply Hresume. }
  assert (Hp : bool_decide (new_state = VStr "paused")
               && bool_decide (cur = VStr "running") = false).
  { apply andb_false_iff.
    destruct (decide (new_state = VStr "paused")) as [Hn1|Hn1];
      [right | left]; apply bool_decide_eq_false_2; [|exact Hn1].
    intros Hc. by apply Hpause. }
  rewrite Hr, Hp.
  exists (log (EPrint (rejection_msg ++ nl)) w1).
  split; [reflexivity|]. simpl. rewrite Ht. split; [by rewrite <- app_assoc|].
  rewrite !posts_of_app. simpl. by rewrite !app_nil_r.
Qed.

Lemma other_pairs_rejected_witness :
  let E := ex_env [status_reply "creating"] Other in
  let w := ex_world "running" in
  exists w',
    aura_request_state_change 3 (VStr "paused") 0%nat E w = (Done tt, w') /\
    trace w' = (trace w ++ [EGet (ex_api ++ "2bxxxxxx") ex_headers;
                            EPrint (rejection_msg ++ nl)])%list /\
    posts_of (trace w') = posts_of (trace w).
Proof.
  apply (other_pairs_rejected (ex_env [status_reply "creating"] Other) 0%nat
           ex_api "2bxxxxxx" ex_headers (VStr "creating") (VStr "paused") 3
           (ex_world "running")); try reflexivity.
  - eexists. split; reflexivity.
  - discriminate.
  - intros [Hc _]. discriminate Hc.
  - intros [Hc _]. discriminate Hc.
Defined.

(** C4, as stated, fails: running to running is a pair other than paused to
    running and running to paused, and for it the call prints that the
    instance is already running, not the rejection. *)
Lemma same_pair_not_rejected :
  let E := ex_env [status_reply "running"] Other in
  let w := ex_world "running" in
  let '(o, w') := aura_request_state_change 3 (VStr "running") 0%nat E w in
  o = Done tt /\
  trace w' = [EGet (ex_api ++ "2bxxxxxx") ex_headers;
              EPrint ("Instance 'db' (id: '2bxxxxxx') is already 'running'." ++ nl)] /\
  ~ In (EPrint (rejection_msg ++ nl)) (trace w').
Proof.
  vm_compute. repeat split; try reflexivity.
  intros [H | [H | []]]; discriminate H.
Qed.

(** ** The status field and the last poll *)

Lemma bind_not_raised {A B} (m : M A) (f : A -> M B) E w o w' :
  bind m f E w = (o, w') ->
  (forall e, o <> Raised e) ->
  (exists a w1, m E w = (Done a, w1) /\ f a E w1 = (o, w')) \/
  (m E w = (Timeout, w') /\ o = Timeout).
Proof.
  unfold bind. destruct (m E w) as [[a|e|] w1]; intros H Hno.
  - left. by exists a, w1.
  - injection H as <- <-. by destruct (Hno e).
  - injection H as <- <-. by right.
Qed.

(** The primitives never run out of fuel. *)
Ltac no_timeout H :=
  exfalso;
  unfold dict_get, getitem, py_add, as_url, requests_post, send, now, print,
    print_noend, sleep, emit, ret, raise in H;
  repeat (match type of H with
          | context [match ?x with _ => _ end] => destruct x
          end);
  discriminate H.

Ltac peel H :=
  let Hto := fresh "Hto" in
  let Hstep := fresh "Hstep" in
  apply bind_not_raised in H as [(? & ? & Hstep & H) | [Hto _]];
  [ | try (no_timeout Hto) | try assumption ].

Lemma aura_change_state_sync E new_state inst_action l fuel w o w' :
  (0 < fuel)%nat ->
  aura_change_state fuel new_state inst_action l E w = (o, w') ->
  (forall e, o <> Raised e) ->
  status_in_sync E w' l.
Proof.
  intros Hpos H Hno. unfold aura_change_state in H.
  do 13 (peel H; clear Hstep).
  apply bind_not_raised in H as [(u & w4 & Hloop & H) | [Hloop ->]]; [| |exact Hno].
  2:{ by apply (poll_until_sync E new_state l fuel _ Timeout w' Hpos Hloop). }
  assert (Hsync : status_in_sync E w4 l).
  { by apply (poll_until_sync E new_state l fuel _ (Done u) w4 Hpos Hloop). }
  peel H. injection Hstep as <- <-.
  peel H. apply dict_get_world in Hstep as ->.
  peel H. apply dict_get_world in Hstep as ->.
  peel H. inversion Hstep; subst; clear Hstep.
  destruct (elapsed_hms _ _) as [[hh mm] ss].
  peel H. inversion Hstep; subst; clear Hstep.
  inversion H; subst; clear H.
  do 2 (apply status_in_sync_log; [reflexivity|]). by apply status_in_sync_tick.
Qed.

Lemma aura_request_state_change_sync E new_state l fuel w o w' :
  (0 < fuel)%nat ->
  aura_request_state_change fuel new_state l E w = (o, w') ->
  (forall e, o <> Raised e) ->
  status_in_sync E w' l.
Proof.
  intros Hpos H Hno.
  destruct (aura_inst_state l E w) as [[r|e|] w1] eqn:Hrun.
  - apply aura_inst_state_inv in Hrun as Hinv.
    destruct Hinv as (m & api & id & h & d & s & Hl & _ & _ & _ & Hn & Hs & -> & ->).
    pose proof (refreshed_in_sync E w l m (api ++ id) h d s Hn Hs) as Hsync.
    pose proof (refreshed_status E w l m (api ++ id) h s) as Hst.
    rewrite (aura_request_state_change_after_refresh E fuel _ l w _ _ Hrun Hst) in H.
    unfold after_refresh in H.
    destruct (bool_decide (s = new_state)) eqn:Hsame.
    + apply bool_decide_eq_true in Hsame. subst s.
      pose proof (after_refresh_already E fuel new_state l _ Hst) as Hpost.
      unfold after_refresh in Hpost.
      rewrite bool_decide_eq_true_2 in Hpost by reflexivity. rewrite H in Hpost.
      destruct Hpost as (Hheap & Hreq & Htr & _).
      revert Hsync. by apply status_in_sync_ext.
    + destruct (bool_decide (new_state = VStr "running") && bool_decide (s = VStr "paused")).
      { by apply (aura_change_state_sync E new_state "resume" l fuel _ o w' Hpos H). }
      destruct (bool_decide (new_state = VStr "paused") && bool_decide (s = VStr "running")).
      { by apply (aura_change_state_sync E new_state "pause" l fuel _ o w' Hpos H). }
      injection H as <- <-. by apply status_in_sync_log.
  - unfold aura_request_state_change, bind in H. rewrite Hrun in H.
    injection H as <- <-. by destruct (Hno e).
  - by apply aura_inst_state_no_timeout in Hrun.
Qed.

(** C6: after a status check that returns, after any number of completed
    turns of the polling loop, and after a state-change request that did not
    raise (its refresh included), the ['status'] field of the instance info is
    the status in the reply to the most recent request. *)
Theorem status_reflects_last_poll E l :
  (forall w r w',
     aura_inst_state l E w = (Done r, w') -> status_in_sync E w' l) /\
  (forall fuel new_state w o w',
     (0 < fuel)%nat ->
     poll_until fuel new_state l E w = (o, w') ->
     (forall e, o <> Raised e) ->
     status_in_sync E w' l) /\
  (forall fuel new_state inst_action w o w',
     (0 < fuel)%nat ->
     aura_change_state fuel new_state inst_action l E w = (o, w') ->
     (forall e, o <> Raised e) ->
     status_in_sync E w' l) /\
  (forall fuel new_state w o w',
     (0 < fuel)%nat ->
     aura_request_state_change fuel new_state l E w = (o, w') ->
     (forall e, o <> Raised e) ->
     status_in_sync E w' l).
Proof.
  split; [|split; [|split]].
  - intros w r w' Hrun.
    apply aura_inst_state_inv in Hrun
      as (m & api & id & h & d & s & _ & _ & _ & _ & Hn & Hs & _ & ->).
    by apply refreshed_in_sync with d.
  - intros fuel new_state w o w'. apply poll_until_sync.
  - intros fuel new_state inst_action w o w'. apply aura_change_state_sync.
  - intros fuel new_state w o w'. apply aura_request_state_change_sync.
Qed.

Lemma status_reflects_last_poll_witness :
  let E := ex_env [status_reply "running"; Other; status_reply "pausing"]
             (status_reply "paused") in
  status_in_sync E (snd (aura_inst_state 0%nat E (ex_world "running"))) 0%nat /\
  status_in_sync E (snd (poll_until 2 (VStr "running") 0%nat E (ex_world "paused"))) 0%nat /\
  status_in_sync E
    (snd (aura_request_state_change 5 (VStr "paused") 0%nat E (ex_world "running"))) 0%nat.
Proof.
  set (E := ex_env [status_reply "running"; Other; status_reply "pausing"]
              (status_reply "paused")).
  destruct (status_reflects_last_poll E 0%nat) as (Hstate & Hloop & _ & Hreq).
  split; [|split].
  - apply (Hstate (ex_world "running") 0%nat). by vm_compute.
  - apply (Hloop 2%nat (VStr "running") (ex_world "paused") (Done tt)); [lia| |discriminate].
    by vm_compute.
  - apply (Hreq 5%nat (VStr "paused") (ex_world "running") (Done tt)); [lia| |discriminate].
    by vm_compute.
Defined.

(** C2: the loop, and so [aura_change_state], returns only from a poll
    whose reply carries the target: at the return the ['status'] field and the
    status of the last reply are both the target.  And there is no bound on
    the polls: when every reply carries some other status, the run is still
    polling after any number of turns, one GET sent per turn. *)
Theorem polling_ends_only_on_target E new_state inst_action l :
  (forall fuel w w',
     poll_until fuel new_state l E w = (Done tt, w') ->
     field w' l "status" = Some new_state /\
     last_reply_status E w' = Some new_state) /\
  (forall fuel w w',
     aura_change_state fuel new_state inst_action l E w = (Done tt, w') ->
     field w' l "status" = Some new_state /\
     last_reply_status E w' = Some new_state) /\
  (forall api id h name cur w,
     field w l "aura_api" = Some (VStr api) ->
     field w l "id" = Some (VStr id) ->
     field w l "headers" = Some h ->
     field w l "name" = Some name ->
     field w l "status" = Some cur ->
     net E (requests w) <> NetErr ->
     (forall i, exists d s,
         net E (S (requests w) + i)%nat = Data d /\ d !! "status" = Some s
         /\ s <> new_state) ->
     forall fuel, exists w',
       aura_change_state fuel new_state inst_action l E w = (Timeout, w') /\
       requests_of (trace w') =
         (requests_of (trace w)
          ++ [EPost (api ++ id ++ "/" ++ inst_action) None None (Some h)]
          ++ replicate fuel (EGet (api ++ id) h))%list).
Proof.
  split; [|split].
  - intros fuel w w'. apply poll_until_done.
  - intros fuel w w'. apply aura_change_state_done.
  - intros api id h name cur w Ha Hi Hh Hname Hcur Hpost Hall fuel.
    by apply aura_change_state_never with name cur.
Qed.

Lemma polling_ends_only_on_target_witness :
  let E := ex_env [Other; status_reply "pausing"] (status_reply "paused") in
  let E' := ex_env [Other] (status_reply "pausing") in
  let w := ex_world "running" in
  (field (snd (aura_change_state 5 (VStr "paused") "pause" 0%nat E w)) 0%nat "status"
     = Some (VStr "paused") /\
   last_reply_status E (snd (aura_change_state 5 (VStr "paused") "pause" 0%nat E w))
     = Some (VStr "paused")) /\
  (forall fuel, exists w',
     aura_change_state fuel (VStr "paused") "pause" 0%nat E' w = (Timeout, w') /\
     requests_of (trace w') =
       (requests_of (trace w)
        ++ [EPost (ex_api ++ "2bxxxxxx" ++ "/" ++ "pause") None None (Some ex_headers)]
        ++ replicate fuel (EGet (ex_api ++ "2bxxxxxx") ex_headers))%list).
Proof.
  split.
  - apply (proj1 (proj2 (polling_ends_only_on_target
             (ex_env [Other; status_reply "pausing"] (status_reply "paused"))
             (VStr "paused") "pause" 0%nat)) 5%nat (ex_world "running")).
    by vm_compute.
  - apply (proj2 (proj2 (polling_ends_only_on_target
             (ex_env [Other] (status_reply "pausing")) (VStr "paused") "pause" 0%nat))
             ex_api "2bxxxxxx" ex_headers (VStr "db") (VStr "running")
             (ex_world "running")); try reflexivity.
    + discriminate.
    + intros i. exists {[ "status" := VStr "pausing" ]}, (VStr "pausing").
      split; [|split; [reflexivity|discriminate]].
      simpl. by destruct i.
Defined.

Lemma state_change_posts_once_witness :
  let E := ex_env [status_reply "running"; Other; status_reply "pausing"]
             (status_reply "paused") in
  let w := ex_world "running" in
  let post := EPost (ex_api ++ "2bxxxxxx" ++ "/" ++ "pause") None None (Some ex_headers) in
  let get := EGet (ex_api ++ "2bxxxxxx") ex_headers in
  exists w',
    aura_request_state_change 5 (VStr "paused") 0%nat E w = (Done tt, w') /\
    requests_of (trace w') = (requests_of (trace w) ++ [get; post] ++ replicate 2 get)%list /\
    posts_of (trace w') = (posts_of (trace w) ++ [post])%list /\
    field w' 0%nat "status" = Some (VStr "paused").
Proof.
  apply (proj1 (state_change_posts_once
           (ex_env [status_reply "running"; Other; status_reply "pausing"]
              (status_reply "paused"))
           0%nat ex_api "2bxxxxxx" ex_headers (VStr "db") "running" "paused" "pause"
           (ex_world "running")
           (or_intror (conj eq_refl (conj eq_refl eq_refl)))
           eq_refl eq_refl eq_refl eq_refl
           (ex_intro _ {[ "status" := VStr "running" ]} (conj eq_refl eq_refl))
           ltac:(discriminate)) 1%nat 5%nat).
  - lia.
  - intros i Hi. assert (i = 0%nat) as -> by lia.
    exists {[ "status" := VStr "pausing" ]}, (VStr "pausing").
    split; [reflexivity|]. split; [reflexivity|discriminate].
  - exists {[ "status" := VStr "paused" ]}. split; reflexivity.
Defined.

(** * Further properties *)

(** ** What a run may do, step by step *)

Section Within.
Context (R : nat -> world -> world -> Prop).
Context (l : loc) (new_state : pyval) (ok : string -> Prop).
Hypothesis R_refl : forall n w, R n w w.
Hypothesis R_comp : forall n1 n2 a b c, R n1 a b -> R n2 b c -> R (n1 + n2) a c.
Hypothesis R_print : forall n s w, R n w (log (EPrint s) w).
Hypothesis R_sleep : forall n secs w, R n w (log (ESleep secs) w).
Hypothesis R_tick : forall n w, R n w (tick w).
Hypothesis R_get : forall n url h w, R n w (sent (EGet url h) w).
Hypothesis R_set : forall n k v d w,
  heap w !! l = Some d -> k = "status" \/ k = "info_updated" ->
  R n w (stored l k v d w).
Hypothesis R_post : forall inst_action x y h w,
  ok inst_action ->
  R 1 w (sent (EPost (((x ++ y) ++ "/") ++ inst_action) None None (Some h)) w).
Hypothesis ok_resume : new_state = VStr "running" -> ok "resume".
Hypothesis ok_pause : new_state = VStr "paused" -> ok "pause".

Lemma within_bind_post {A B} n1 n2 (m : M A) (f : A -> M B) (Post : A -> Prop) :
  returns m Post -> within R n1 m -> (forall a, Post a -> within R n2 (f a)) ->
  within R (n1 + n2) (bind m f).
Proof.
  intros Hpost Hm Hf E w o w' H. unfold bind in H.
  destruct (m E w) as [[a|e|] w1] eqn:Hrun.
  - apply R_comp with w1; [by apply (Hm E w (Done a))|].
    apply (Hf a (Hpost E w a w1 Hrun) E w1 o w' H).
  - injection H as <- <-. replace w1 with w1 by reflexivity.
    apply R_comp with w1; [by apply (Hm E w (Raised e))|apply R_refl].
  - injection H as <- <-.
    apply R_comp with w1; [by apply (Hm E w Timeout)|apply R_refl].
Qed.

Lemma within_bind {A B} n1 n2 (m : M A) (f : A -> M B) :
  within R n1 m -> (forall a, within R n2 (f a)) -> within R (n1 + n2) (bind m f).
Proof.
  intros Hm Hf. apply within_bind_post with (Post := fun _ => True); auto.
  by intros ? ? ? ? _.
Qed.

Lemma within_ret {A} n (a : A) : within R n (ret a).
Proof. intros E w o w' [= <- <-]. apply R_refl. Qed.

Lemma within_raise {A} n e : within R n (@raise A e).
Proof. intros E w o w' [= <- <-]. apply R_refl. Qed.

Lemma within_out_of_fuel {A} n : within R n (@out_of_fuel A).
Proof. intros E w o w' [= <- <-]. apply R_refl. Qed.

Lemma within_dict_get n l' k : within R n (dict_get l' k).
Proof. intros E w o w' H. apply dict_get_world in H as ->. apply R_refl. Qed.

Lemma within_getitem n d k : within R n (getitem d k).
Proof. unfold getitem. destruct (d !! k); [apply within_ret|apply within_raise]. Qed.

Lemma within_py_add n a b : within R n (py_add a b).
Proof. destruct a, b; first [apply within_ret|apply within_raise]. Qed.

Lemma within_as_url n v : within R n (as_url v).
Proof. destruct v; [apply within_ret|apply within_raise]. Qed.

Lemma within_json_data n r : within R n (json_data r).
Proof. destruct r; first [apply within_ret|apply within_raise]. Qed.

Lemma within_now n : within R n now.
Proof. intros E w o w' [= <- <-]. apply R_tick. Qed.

Lemma within_print n (g : env -> string) : within R n (fun E => print (g E) E).
Proof. intros E w o w' [= <- <-]. apply R_print. Qed.

Lemma within_print_noend n (g : env -> string) :
  within R n (fun E => print_noend (g E) E).
Proof. intros E w o w' [= <- <-]. apply R_print. Qed.

Lemma within_sleep n secs : within R n (sleep secs).
Proof. intros E w o w' [= <- <-]. apply R_sleep. Qed.

Lemma within_requests_get n url h : within R n (requests_get url h).
Proof.
  intros E w o w' H. unfold requests_get, send in H.
  destruct (net E (requests w)); injection H as <- <-; apply R_get.
Qed.

Lemma within_set n k v :
  k = "status" \/ k = "info_updated" -> within R n (dict_set l k v).
Proof.
  intros Hk E w o w' H. unfold dict_set in H.
  destruct (heap w !! l) as [d|] eqn:Hl; injection H as <- <-.
  - by apply (R_set n k v d w).
  - apply R_refl.
Qed.

Lemma within_set_env n k (g : env -> pyval) :
  k = "status" \/ k = "info_updated" ->
  within R n (fun E => dict_set l k (g E) E).
Proof. intros Hk E w o w' H. by apply (within_set n k (g E) Hk E w o w'). Qed.

Ltac quiet :=
  first [ apply within_ret | apply within_raise | apply within_dict_get
        | apply within_getitem | apply within_py_add | apply within_as_url
        | apply within_json_data | apply within_now | apply within_sleep
        | apply within_requests_get
        | apply (within_print _ (fun _ => _)) | apply within_print
        | apply (within_print_noend _ (fun _ => _)) | apply within_print_noend
        | apply within_set; auto | apply within_set_env; auto ].

Ltac quiet_steps n :=
  repeat (apply (within_bind 0 n); [quiet | intros ?]).

Lemma within_aura_inst_state n : within R n (aura_inst_state l).
Proof. unfold aura_inst_state. quiet_steps n. quiet. Qed.

Lemma within_poll_until n fuel : within R n (poll_until fuel new_state l).
Proof.
  induction fuel as [|fuel IH]; [apply within_out_of_fuel|].
  cbn [poll_until].
  apply (within_bind 0 n); [apply within_aura_inst_state | intros r].
  apply (within_bind 0 n); [quiet | intros status].
  destruct (bool_decide (new_state <> status)); [|quiet].
  apply (within_bind 0 n); [apply (within_print_noend 0 (fun _ => ".")) | intros _].
  apply (within_bind 0 n); [quiet | intros _]. exact IH.
Qed.

Lemma returns_py_add a b :
  returns (py_add a b) (fun v => exists x y, a = VStr x /\ b = VStr y /\ v = VStr (x ++ y)).
Proof.
  intros E w v w' H. destruct a as [x|], b as [y|]; try discriminate.
  injection H as <- _. by exists x, y.
Qed.

Lemma returns_as_url v : returns (as_url v) (fun s => v = VStr s).
Proof. intros E w s w' H. destruct v; [|discriminate]. by injection H as <- _. Qed.

Lemma within_requests_post inst_action x y h :
  ok inst_action ->
  within R 1 (requests_post (((x ++ y) ++ "/") ++ inst_action) None None (Some h)).
Proof.
  intros Hok E w o w' H. unfold requests_post, send in H.
  destruct (net E (requests w)); injection H as <- <-; by apply R_post.
Qed.

(** [aura_change_state]: at most one step of grade 1, its POST. *)
Lemma within_aura_change_state fuel inst_action :
  ok inst_action ->
  within R 1 (aura_change_state fuel new_state inst_action l).
Proof.
  intros Hok. unfold aura_change_state.
  do 7 (apply (within_bind 0 1); [quiet | intros ?]).
  apply (within_bind_post 0 1 _ _ _ (returns_py_add _ _));
    [quiet | intros ? (x & y & _ & _ & ->)].
  apply (within_bind_post 0 1 _ _ _ (returns_py_add _ _));
    [quiet | intros ? (x1 & y1 & [= <-] & [= <-] & ->)].
  apply (within_bind_post 0 1 _ _ _ (returns_py_add _ _));
    [quiet | intros ? (x2 & y2 & [= <-] & [= <-] & ->)].
  apply (within_bind_post 0 1 _ _ _ (returns_as_url _)); [quiet | intros ? [= <-]].
  apply (within_bind 0 1); [quiet | intros h].
  apply (within_bind 1 0); [by apply within_requests_post | intros r].
  apply (within_bind 0 0); [apply within_poll_until | intros _].
  do 4 (apply (within_bind 0 0); [quiet | intros ?]).
  destruct (elapsed_hms _ _) as [[hh mm] ss].
  apply (within_bind 0 0); [quiet | intros _]. quiet.
Qed.

(** [aura_request_state_change]: the refresh, then at most one POST. *)
Lemma within_aura_request_state_change fuel :
  within R 1 (aura_request_state_change fuel new_state l).
Proof.
  unfold aura_request_state_change.
  apply (within_bind_post 0 1 _ _ (fun r => r = l));
    [|apply within_aura_inst_state | intros r ->].
  { intros E w r w' H. by apply (aura_inst_state_any E w l (Done r) w' H). }
  apply (within_bind 0 1); [quiet | intros status].
  destruct (bool_decide (status = new_state)).
  { do 3 (apply (within_bind 0 1); [quiet | intros ?]). quiet. }
  apply (within_bind_post 0 1 _ _ (fun b : bool => b = true -> new_state = VStr "running")).
  { intros E w b w' H. destruct (bool_decide (new_state = VStr "running")) eqn:Hb.
    - intros _. by apply bool_decide_eq_true in Hb.
    - injection H as <- _. discriminate. }
  { destruct (bool_decide (new_state = VStr "running")); [|quiet].
    apply (within_bind 0 0); [quiet | intros ?]. quiet. }
  intros [|] Hres.
  { apply within_aura_change_state. by apply ok_resume, Hres. }
  apply (within_bind_post 0 1 _ _ (fun b : bool => b = true -> new_state = VStr "paused")).
  { intros E w b w' H. destruct (bool_decide (new_state = VStr "paused")) eqn:Hb.
    - intros _. by apply bool_decide_eq_true in Hb.
    - injection H as <- _. discriminate. }
  { destruct (bool_decide (new_state = VStr "paused")); [|quiet].
    apply (within_bind 0 0); [quiet | intros ?]. quiet. }
  intros [|] Hp.
  { apply within_aura_change_state. by apply ok_pause, Hp. }
  quiet.
Qed.
End Within.

(** ** What a state change never does *)

Lemma frame_refl l n w : frame l n w w.
Proof. split; [apply only_status_changed_refl|reflexivity]. Qed.

Lemma frame_comp l n1 n2 a b c : frame l n1 a b -> frame l n2 b c -> frame l (n1 + n2) a c.
Proof.
  intros [Hab Dab] [Hbc Dbc]. split.
  - by apply only_status_changed_trans with b.
  - by rewrite Dbc.
Qed.

Lemma frame_stored l n k v d w :
  heap w !! l = Some d -> k = "status" \/ k = "info_updated" ->
  frame l n w (stored l k v d w).
Proof.
  intros Hl Hk. split.
  - intros l' k' Hk'. unfold field, stored. simpl.
    destruct (decide (l' = l)) as [->|Hne]; [|by rewrite lookup_insert_ne].
    rewrite lookup_insert_eq, Hl. destruct Hk' as [?|[Hs Hi]]; [done|].
    rewrite lookup_insert_ne; [reflexivity|]. destruct Hk; congruence.
  - unfold stored. simpl. rewrite dom_insert_L.
    assert (Hin : l ∈ dom (heap w)) by (apply elem_of_dom; by eexists).
    apply set_eq. intros x. rewrite elem_of_union, elem_of_singleton.
    split; [intros [-> | Hx]; assumption | by right].
Qed.

Lemma frame_same_heap l n w w' : heap w' = heap w -> frame l n w w'.
Proof.
  intros Hh. split; [|by rewrite Hh].
  intros l' k _. unfold field. by rewrite Hh.
Qed.

Lemma frame_within_request l new_state fuel :
  within (frame l) 1 (aura_request_state_change fuel new_state l).
Proof.
  apply (within_aura_request_state_change (frame l) l new_state (fun _ => True));
    try (intros; by apply frame_same_heap); try done.
  - apply frame_comp.
  - apply frame_stored.
Qed.

Lemma frame_within_change l new_state fuel inst_action :
  within (frame l) 1 (aura_change_state fuel new_state inst_action l).
Proof.
  apply (within_aura_change_state (frame l) l new_state (fun _ => True));
    try (intros; by apply frame_same_heap); try done.
  - apply frame_comp.
  - apply frame_stored.
Qed.

(** X1: however a state-change request (or [aura_change_state] alone) ends,
    by a return, an exception or while still polling, it has created and
    removed no object, and it has changed nothing but the ['status'] and
    ['info_updated'] keys of the instance info it was given: the credentials
    in ['headers'], the ['id'], the ['aura_api'] stay as they were. *)
Theorem state_change_frame E fuel new_state inst_action l w :
  (let '(_, w') := aura_request_state_change fuel new_state l E w in
   only_status_changed w w' l /\ dom (heap w') = dom (heap w)) /\
  (let '(_, w') := aura_change_state fuel new_state inst_action l E w in
   only_status_changed w w' l /\ dom (heap w') = dom (heap w)).
Proof.
  split.
  - destruct (aura_request_state_change fuel new_state l E w) as [o w'] eqn:H.
    exact (frame_within_request l new_state fuel E w o w' H).
  - destruct (aura_change_state fuel new_state inst_action l E w) as [o w'] eqn:H.
    exact (frame_within_change l new_state fuel inst_action E w o w' H).
Qed.

Lemma posts_grow_refl allowed n w : posts_grow allowed n w w.
Proof. exists []. rewrite app_nil_r. split; [done|]. split; [simpl; lia|constructor]. Qed.

Lemma posts_grow_comp allowed n1 n2 a b c :
  posts_grow allowed n1 a b -> posts_grow allowed n2 b c ->
  posts_grow allowed (n1 + n2) a c.
Proof.
  intros (p1 & H1 & L1 & F1) (p2 & H2 & L2 & F2). exists (p1 ++ p2)%list.
  split; [by rewrite H2, H1, <- app_assoc|].
  split; [rewrite length_app; lia | by apply Forall_app].
Qed.

Lemma posts_grow_quiet allowed n w w' :
  posts_of (trace w') = posts_of (trace w) -> posts_grow allowed n w w'.
Proof.
  intros Hq. exists []. rewrite app_nil_r. split; [exact Hq|].
  split; [simpl; lia|constructor].
Qed.

(** X2: in every run, whatever the replies, [aura_request_state_change]
    sends at most one POST; a POST it sends goes to a URL that ends in
    ["/resume"] and then the target is ["running"], or in ["/pause"] and then
    the target is ["paused"].  So for any other target no POST is ever sent. *)
Theorem at_most_one_post E fuel new_state l w :
  let '(_, w') := aura_request_state_change fuel new_state l E w in
  (exists ps,
     posts_of (trace w') = (posts_of (trace w) ++ ps)%list /\
     (length ps <= 1)%nat /\ Forall (action_post new_state) ps) /\
  (new_state <> VStr "running" -> new_state <> VStr "paused" ->
   posts_of (trace w') = posts_of (trace w)).
Proof.
  destruct (aura_request_state_change fuel new_state l E w) as [o w'] eqn:H.
  assert (Hg : posts_grow (action_post new_state) 1 w w').
  { revert E w o w' H.
    apply (within_aura_request_state_change (posts_grow (action_post new_state)) l
             new_state
             (fun a => (a = "resume" /\ new_state = VStr "running") \/
                       (a = "pause" /\ new_state = VStr "paused"))).
    - apply posts_grow_refl.
    - apply posts_grow_comp.
    - intros n s w. apply posts_grow_quiet. simpl. rewrite posts_of_app. apply app_nil_r.
    - intros n s w. apply posts_grow_quiet. simpl. rewrite posts_of_app. apply app_nil_r.
    - intros n w. by apply posts_grow_quiet.
    - intros n url h w. apply posts_grow_quiet. simpl. rewrite posts_of_app. apply app_nil_r.
    - intros n k v d w _ _. by apply posts_grow_quiet.
    - intros a x y h w Hok.
      exists [EPost (((x ++ y) ++ "/") ++ a) None None (Some h)].
      split; [simpl; by rewrite posts_of_app|]. split; [simpl; lia|].
      constructor; [|constructor]. by exists (x ++ y), h, a.
    - intros ->. by left.
    - intros ->. by right. }
  split; [exact Hg|].
  intros Hr Hp. destruct Hg as (ps & Hps & _ & Hall).
  destruct ps as [|e ps]; [by rewrite Hps, app_nil_r|].
  apply Forall_cons in Hall as [(base & h & a & _ & [[_ Hn] | [_ Hn]]) _]; contradiction.
Qed.

(** ** When the status check fails *)

(** X3: a status check that raises leaves the heap as it was (the ['status']
    field keeps its old value) and has sent at most its one GET; when one of
    the keys ['aura_api'], ['id'], ['headers'] is missing it raises without
    sending anything; and a reply that carries no status raises after the GET,
    with the heap unchanged. *)
Theorem aura_inst_state_failure E w l :
  let '(o, w') := aura_inst_state l E w in
  (forall e, o = Raised e ->
     heap w' = heap w /\ (w' = w \/ exists url h, w' = sent (EGet url h) w)) /\
  (forall m k, heap w !! l = Some m ->
     k = "aura_api" \/ k = "id" \/ k = "headers" -> m !! k = None ->
     (exists e, o = Raised e) /\ w' = w) /\
  (forall r, o = Done r ->
     exists d, net E (requests w) = Data d /\ is_Some (d !! "status")).
Proof.
  destruct (aura_inst_state l E w) as [o w'] eqn:H.
  split; [|split].
  - intros e ->. unfold aura_inst_state in H. unfold_prims. simpl in H.
    repeat run_step; try (split; [reflexivity|]; (by left) || (right; by eexists _, _)).
    all: rewrite lookup_insert_eq in *; discriminate.
  - intros m k Hl Hk Hnone. unfold aura_inst_state in H. unfold_prims. simpl in H.
    rewrite Hl in H. simpl in H.
    destruct (m !! "aura_api") as [api|] eqn:Ha; simpl in H;
      [|injection H as <- <-; split; [by eexists|reflexivity]].
    rewrite Hl in H. simpl in H.
    destruct (m !! "id") as [id|] eqn:Hi; simpl in H;
      [|injection H as <- <-; split; [by eexists|reflexivity]].
    destruct api as [a|], id as [i|]; simpl in H;
      try (injection H as <- <-; split; [by eexists|reflexivity]).
    rewrite Hl in H. simpl in H.
    destruct (m !! "headers") as [h|] eqn:Hh; simpl in H;
      [|injection H as <- <-; split; [by eexists|reflexivity]].
    destruct Hk as [-> | [-> | ->]]; congruence.
  - intros r ->.
    apply aura_inst_state_inv in H as (m & a & i & h & d & s & _ & _ & _ & _ & Hn & Hs & _).
    exists d. split; [exact Hn|by eexists].
Qed.

(** ** The whole run of a state change *)

Lemma slept_app t1 t2 : slept (t1 ++ t2) = slept t1 + slept t2.
Proof.
  induction t1 as [|e t1 IH]; [reflexivity|].
  destruct e; simpl; rewrite IH; lia.
Qed.

Lemma slept_polls url h k :
  slept (concat (replicate k (poll_again url h))) = 5 * Z.of_nat k.
Proof. induction k as [|k IH]; [reflexivity|]. simpl concat. simpl slept. lia. Qed.

(** X4: when the POST goes through and reply [k + 1] of the polls is the
    first to carry the target, [aura_change_state] returns, and its trace is:
    the "Requesting" line, the POST, then [k] times a GET, a dot and a sleep
    of five seconds, then the GET that sees the target, the "is now" line and
    the elapsed time between the first and the last reading of the clock.
    There is no sleep before the first poll or after the last: [5 * k]
    seconds are slept in all. *)
Theorem aura_change_state_trace E new_state inst_action l api id h name cur k fuel w :
  (k < fuel)%nat ->
  field w l "aura_api" = Some (VStr api) ->
  field w l "id" = Some (VStr id) ->
  field w l "headers" = Some h ->
  field w l "name" = Some name ->
  field w l "status" = Some cur ->
  net E (requests w) <> NetErr ->
  (forall i, (i < k)%nat -> exists d s,
      net E (S (requests w) + i)%nat = Data d /\ d !! "status" = Some s /\ s <> new_state) ->
  (exists d, net E (S (requests w) + k)%nat = Data d /\ d !! "status" = Some new_state) ->
  let t0 := clock E (ticks w) in
  let t1 := clock E (ticks w + S (S k))%nat in
  exists w',
    aura_change_state fuel new_state inst_action l E w = (Done tt, w') /\
    trace w' =
      (trace w
       ++ [EPrint (requesting_msg E t0 name (VStr id) cur new_state);
           EPost (api ++ id ++ "/" ++ inst_action) None None (Some h)]
       ++ concat (replicate k (poll_again (api ++ id) h))
       ++ [EGet (api ++ id) h;
           EPrint (changed_msg E t1 name (VStr id) new_state ++ nl);
           EPrint (elapsed_msg t0 t1 ++ nl)])%list /\
    slept (trace w') = slept (trace w) + 5 * Z.of_nat k /\
    requests w' = (requests w + S (S k))%nat.
Proof.
  intros Hlt Ha Hi Hh Hname Hcur Hpost Hbefore Hat. cbv zeta.
  unfold aura_change_state.
  step_pure. step_get Hname. step_get Hi. step_get Hcur. step_pure.
  step_get Ha. step_get Hi. do 4 step_pure. step_get Hh.
  match goal with
  | |- context [bind (requests_post ?u None None (Some h)) _ E ?w2] =>
      set (post := EPost u None None (Some h));
      rewrite (bind_run _ _ E w2 _ _ (send_run E w2 post Hpost));
      set (w3 := sent post w2)
  end.
  destruct (poll_until_reaches E new_state l api id h k fuel w3)
    as (w4 & Hrun & Ht & Hr & Hc & Hst & Hfr); try assumption.
  rewrite (bind_run _ _ _ _ _ _ Hrun).
  assert (Hname4 : field (tick w4) l "name" = Some name).
  { change (field w4 l "name" = Some name). rewrite Hfr by (right; done). exact Hname. }
  assert (Hi4 : field (tick w4) l "id" = Some (VStr id)).
  { change (field w4 l "id" = Some (VStr id)). rewrite Hfr by (right; done). exact Hi. }
  step_pure. step_get Hname4. step_get Hi4. step_pure.
  assert (Hc4 : ticks w4 = (ticks w + S (S k))%nat) by (rewrite Hc; simpl; lia).
  rewrite Hc4. unfold elapsed_msg.
  destruct (elapsed_hms (clock E (ticks w)) (clock E (ticks w + S (S k))%nat))
    as [[hh mm] ss].
  step_pure. eexists. split; [reflexivity|].
  assert (Htrace : forall msg2 msg3,
    (((trace w4 ++ [EPrint msg2]) ++ [EPrint msg3])%list =
     (trace w
      ++ [EPrint (requesting_msg E (clock E (ticks w)) name (VStr id) cur new_state);
          EPost (api ++ id ++ "/" ++ inst_action) None None (Some h)]
      ++ concat (replicate k (poll_again (api ++ id) h))
      ++ [EGet (api ++ id) h; EPrint msg2; EPrint msg3])%list)).
  { intros msg2 msg3. rewrite Ht. simpl. subst post.
    rewrite !append_assoc. rewrite <- !app_assoc. reflexivity. }
  split; [|split].
  - simpl. apply Htrace.
  - simpl. rewrite Htrace. rewrite !slept_app, slept_polls. simpl. lia.
  - simpl. rewrite Hr. simpl. lia.
Qed.

(** X5: [aura_change_state] sends nothing from an incomplete instance info:
    when one of the keys ['name'], ['id'], ['status'], ['aura_api'],
    ['headers'] is missing it raises with no request sent.  And when the POST
    itself fails, the run ends there: the POST is its only request, no status
    GET follows and nothing is slept. *)
Theorem aura_change_state_failure E fuel new_state inst_action l m w :
  heap w !! l = Some m ->
  (forall k,
     k = "name" \/ k = "id" \/ k = "status" \/ k = "aura_api" \/ k = "headers" ->
     m !! k = None ->
     exists e w',
       aura_change_state fuel new_state inst_action l E w = (Raised e, w') /\
       requests_of (trace w') = requests_of (trace w) /\
       requests w' = requests w /\ heap w' = heap w) /\
  (forall api id h name cur,
     m !! "aura_api" = Some (VStr api) -> m !! "id" = Some (VStr id) ->
     m !! "headers" = Some h -> m !! "name" = Some name ->
     m !! "status" = Some cur ->
     net E (requests w) = NetErr ->
     exists w',
       aura_change_state fuel new_state inst_action l E w = (Raised RequestError, w') /\
       requests_of (trace w') =
         (requests_of (trace w)
          ++ [EPost (api ++ id ++ "/" ++ inst_action) None None (Some h)])%list /\
       slept (trace w') = slept (trace w) /\ heap w' = heap w).
Proof.
  intros Hl. split.
  - intros k Hk Hnone. unfold aura_change_state. unfold_prims. simpl. rewrite Hl. simpl.
    destruct (m !! "name") as [name|] eqn:Hname; simpl;
      [|eexists _, _; split; [reflexivity|by repeat split]].
    rewrite Hl. simpl.
    destruct (m !! "id") as [id|] eqn:Hi; simpl;
      [|eexists _, _; split; [reflexivity|by repeat split]].
    rewrite Hl. simpl.
    destruct (m !! "status") as [cur|] eqn:Hcur; simpl;
      [|eexists _, _; split; [reflexivity|by repeat split]].
    rewrite Hl. simpl.
    destruct (m !! "aura_api") as [api|] eqn:Ha; simpl.
    2:{ eexists _, _. split; [reflexivity|]. repeat split.
        simpl. rewrite requests_of_app. apply app_nil_r. }
    rewrite Hl. simpl. rewrite Hi. simpl.
    destruct api as [a|], id as [i|]; simpl;
      try (eexists _, _; split; [reflexivity|]; repeat split;
           simpl; rewrite requests_of_app; apply app_nil_r).
    rewrite Hl. simpl.
    destruct (m !! "headers") as [h|] eqn:Hh; simpl.
    2:{ eexists _, _. split; [reflexivity|]. repeat split.
        simpl. rewrite requests_of_app. apply app_nil_r. }
    destruct Hk as [-> | [-> | [-> | [-> | ->]]]]; congruence.
  - intros api id h name cur Ha Hi Hh Hname Hcur Hnet.
    unfold aura_change_state. unfold_prims. simpl.
    repeat (rewrite ?Hl, ?Hname, ?Hi, ?Hcur, ?Ha, ?Hh; simpl). rewrite Hnet.
    eexists. split; [reflexivity|]. simpl.
    rewrite !requests_of_app, !slept_app. simpl. rewrite !app_nil_r, !append_assoc.
    repeat split. lia.
Qed.

(** ** The elapsed-time line *)

Lemma pad2_two_digits n : 0 <= n < 100 -> two_digits (pad2 n) = true.
Proof.
  intros Hn.
  assert (Hall : forallb (fun k => two_digits (pad2 (Z.of_nat k))) (seq 0 100) = true)
    by (vm_compute; reflexivity).
  rewrite forallb_forall in Hall.
  rewrite <- (Z2Nat.id n) by lia. apply Hall. apply in_seq. lia.
Qed.

(** X6: the elapsed time is always written as three fields of exactly two
    decimal digits each, hours, minutes and seconds, padded with a zero. *)
Theorem elapsed_msg_two_digits (req_start_time req_end_time : Z) :
  let '(hh, mm, ss) := elapsed_hms req_start_time req_end_time in
  elapsed_msg req_start_time req_end_time
    = "Elapsed time to change state " ++ pad2 hh ++ ":" ++ pad2 mm ++ ":" ++ pad2 ss /\
  two_digits (pad2 hh) = true /\ two_digits (pad2 mm) = true /\
  two_digits (pad2 ss) = true.
Proof.
  pose proof (timedelta_seconds_range req_start_time req_end_time) as Hr.
  unfold elapsed_msg, elapsed_hms, divmod in *.
  set (t := timedelta_seconds req_start_time req_end_time) in *.
  split; [reflexivity|].
  assert (0 <= t / 60 / 60 < 24).
  { split; [apply Z.div_pos; [apply Z.div_pos|]; lia|].
    apply Z.div_lt_upper_bound; [lia|]. apply Z.div_lt_upper_bound; lia. }
  pose proof (Z.mod_pos_bound (t / 60) 60 ltac:(lia)).
  pose proof (Z.mod_pos_bound t 60 ltac:(lia)).
  repeat split; apply pad2_two_digits; lia.
Qed.

(** ** The instance id has no dot *)

Lemma contains_dot_cons c s :
  contains (String c s) "." = Ascii.eqb "." c || contains s ".".
Proof.
  rewrite contains_cons. cbn [starts_with]. by destruct (Ascii.eqb "." c).
Qed.

Lemma substring_no_dot s : forall n m,
  contains s "." = false -> contains (substring n m s) "." = false.
Proof.
  induction s as [|c s IH]; intros n m Hs.
  - by destruct n, m.
  - rewrite contains_dot_cons in Hs. apply orb_false_iff in Hs as [Hc Hs].
    destruct n as [|n].
    + destruct m as [|m]; [reflexivity|].
      cbn [substring]. rewrite contains_dot_cons, Hc. by apply IH.
    + cbn [substring]. by apply IH.
Qed.

Lemma substring_app_l a b : forall n m,
  (n + m <= String.length a)%nat -> substring n m (a ++ b) = substring n m a.
Proof.
  induction a as [|c a IH]; intros n m Hle.
  - simpl in Hle. assert (n = 0%nat) as -> by lia. assert (m = 0%nat) as -> by lia.
    simpl. by destruct b.
  - destruct n as [|n].
    + destruct m as [|m]; [reflexivity|].
      change (String c (substring 0 m (a ++ b)) = String c (substring 0 m a)).
      rewrite IH; [reflexivity|simpl in Hle; lia].
    + change (substring n m (a ++ b) = substring n m a).
      apply IH. simpl in Hle. lia.
Qed.

(** A search for a dot that succeeds splits the string at its first dot. *)
Lemma find_from_dot_inv s : forall i r,
  0 <= i -> find_from "." s i = r ->
  (r = -1 /\ contains s "." = false) \/
  (exists a b, s = a ++ "." ++ b /\ contains a "." = false /\ r = i + len a).
Proof.
  induction s as [|c s IH]; intros i r Hi H.
  - left. simpl in H. by subst r.
  - change (find_from "." (String c s) i)
      with (if starts_with "." (String c s) then i else find_from "." s (i + 1)) in H.
    cbn [starts_with] in H. rewrite contains_dot_cons.
    destruct (Ascii.eqb_spec "." c) as [<-|Hne].
    + right. exists "", s. split; [reflexivity|]. split; [reflexivity|].
      unfold len. simpl. subst r. lia.
    + destruct (IH (i + 1) r ltac:(lia) H) as [[-> Hs] | (a & b & -> & Ha & ->)].
      * left. by split.
      * right. exists (String c a), b. split; [reflexivity|]. split.
        -- rewrite contains_dot_cons, Ha. by destruct (Ascii.eqb_spec "." c).
        -- unfold len. cbn [String.length]. lia.
Qed.

Lemma slice_bound_range n i : 0 <= n -> 0 <= slice_bound n i <= n.
Proof. intros Hn. unfold slice_bound. destruct (Z.ltb_spec i 0); lia. Qed.

(** X7: whatever the string, the id that [aura_inst_id] returns has no dot
    in it. *)
Theorem aura_inst_id_no_dot_inside (aura_url : string) :
  contains (aura_inst_id aura_url) "." = false.
Proof.
  unfold aura_inst_id, slice.
  set (lo := slice_bound (len aura_url) (find aura_url "//" + len "//")).
  destruct (Z.ltb_spec lo (slice_bound (len aura_url) (find aura_url "."))) as [Hlt|];
    [|reflexivity].
  pose proof (slice_bound_range (len aura_url) (find aura_url "//" + len "//")
                (len_nonneg aura_url)) as Hlo. fold lo in Hlo.
  destruct (find_from_dot_inv aura_url 0 (find aura_url ".") ltac:(lia) eq_refl)
    as [[_ Hnone] | (a & b & Hurl & Ha & He)].
  - by apply substring_no_dot.
  - rewrite He in *. rewrite Hurl in *.
    assert (Hhi : slice_bound (len (a ++ "." ++ b)) (0 + len a) = len a).
    { unfold slice_bound. rewrite len_append. pose proof (len_nonneg a).
      pose proof (len_nonneg ("." ++ b)). destruct (Z.ltb_spec (0 + len a) 0); lia. }
    rewrite Hhi in *. rewrite substring_app_l.
    + by apply substring_no_dot.
    + unfold len in *. lia.
Qed.

(** ** Reading the credentials *)

(** Outside [DEFAULT] a lookup goes through the section. *)
Lemma config_get_aura c k :
  config_get c "AURA" k =
    match sections c !! "AURA" with
    | None => raise (KeyError "AURA")
    | Some sec =>
        match option_value c sec k with
        | None => raise (KeyError k)
        | Some v => ret v
        end
    end.
Proof. reflexivity. Qed.

(** The five values of a complete file. *)
Lemma read_neo4j_properties_run E w path config sec api url tok cid secret :
  fs E !! path = Some (Parsed config) ->
  sections config !! "AURA" = Some sec ->
  option_value config sec "AURA_API" = Some api ->
  option_value config sec "AURA_URL" = Some url ->
  option_value config sec "AURA_TOKEN_URL" = Some tok ->
  option_value config sec "AURA_API_CLIENT_ID" = Some cid ->
  option_value config sec "AURA_CLIENT_SECRET" = Some secret ->
  read_neo4j_properties (Some path) E w =
    (Done (Some (api, url, tok, cid, secret)), log (EPrint (using_msg path ++ nl)) w).
Proof.
  intros Hfs Hsec H1 H2 H3 H4 H5.
  unfold read_neo4j_properties, existing_file. rewrite Hfs.
  unfold config_read, bind, ret. rewrite !config_get_aura.
  unfold ret, raise. rewrite Hsec, H1, H2, H3, H4, H5. reflexivity.
Qed.

(** X8: for a file that exists, [read_neo4j_properties] raises what the
    parser raises when the file cannot be parsed, and a [KeyError] for the
    section ['AURA'] when the parsed file has none.  Otherwise each option
    is looked up as the parser does it, its name folded to lower case, in
    the section first and then in [DEFAULT]: the result is a [KeyError] for
    the first option not found, in the order AURA_API, AURA_URL,
    AURA_TOKEN_URL, AURA_API_CLIENT_ID, AURA_CLIENT_SECRET.  In all these cases
    nothing is printed.  When all five are found it prints the "Using" line
    and returns them in that order. *)
Theorem read_neo4j_properties_existing E w path file :
  fs E !! path = Some file ->
  let '(o, w') := read_neo4j_properties (Some path) E w in
  match file with
  | Malformed => o = Raised ConfigError /\ w' = w
  | Parsed config =>
      match sections config !! "AURA" with
      | None => o = Raised (KeyError "AURA") /\ w' = w
      | Some sec =>
          match first_missing config sec with
          | Some k => o = Raised (KeyError k) /\ w' = w
          | None =>
              (exists api url tok cid secret,
                 option_value config sec "AURA_API" = Some api /\
                 option_value config sec "AURA_URL" = Some url /\
                 option_value config sec "AURA_TOKEN_URL" = Some tok /\
                 option_value config sec "AURA_API_CLIENT_ID" = Some cid /\
                 option_value config sec "AURA_CLIENT_SECRET" = Some secret /\
                 o = Done (Some (api, url, tok, cid, secret))) /\
              w' = log (EPrint (using_msg path ++ nl)) w
          end
      end
  end.
Proof.
  intros Hfs. unfold read_neo4j_properties, existing_file. rewrite Hfs.
  destruct file as [|config]; [by split|].
  unfold config_read, bind, ret. rewrite !config_get_aura.
  unfold ret, raise, first_missing, aura_options.
  destruct (sections config !! "AURA") as [sec|]; [|by split].
  cbn [List.find].
  destruct (option_value config sec "AURA_API") as [api|] eqn:H1; [|by split].
  destruct (option_value config sec "AURA_URL") as [url|] eqn:H2; [|by split].
  destruct (option_value config sec "AURA_TOKEN_URL") as [tok|] eqn:H3; [|by split].
  destruct (option_value config sec "AURA_API_CLIENT_ID") as [cid|] eqn:H4; [|by split].
  destruct (option_value config sec "AURA_CLIENT_SECRET") as [secret|] eqn:H5; [|by split].
  split; [|reflexivity]. by exists api, url, tok, cid, secret.
Qed.

(** ** The first fetch of the instance info *)

Lemma fresh_loc_unused (w : world) : heap w !! fresh (dom (heap w)) = None.
Proof. apply not_elem_of_dom. apply is_fresh. Qed.

(** The dictionary [aura_inst_info] builds from the data [d] of the reply. *)
Lemma aura_inst_info_run E w aura_api inst_id headers d :
  net E (requests w) = Data d ->
  aura_inst_info aura_api inst_id headers E w =
    (Done (fresh (dom (heap w))),
     {| heap := <[fresh (dom (heap w)) :=
                   <["info_updated" := VStr (isoformat E (clock E (ticks w)))]>
                     (<["headers" := headers]> (<["aura_api" := VStr aura_api]> d))]>
                  (heap w);
        requests := S (requests w);
        ticks := S (ticks w);
        trace := trace w ++ [EGet (aura_api ++ inst_id) headers] |}).
Proof.
  intros Hn. unfold aura_inst_info. unfold_prims. simpl. rewrite Hn. simpl.
  repeat (rewrite lookup_insert_eq; simpl).
  by rewrite !insert_insert_eq.
Qed.

Lemma inst_info_lookups (t aura_api : string) (headers : pyval) (d : pydict) :
  let m := <["info_updated" := VStr t]>
             (<["headers" := headers]> (<["aura_api" := VStr aura_api]> d)) in
  m !! "aura_api" = Some (VStr aura_api) /\
  m !! "headers" = Some headers /\
  m !! "info_updated" = Some (VStr t) /\
  (forall k, ~ set_by_inst_info k -> m !! k = d !! k).
Proof.
  cbv zeta.
  split; [rewrite !lookup_insert_ne by done; by rewrite lookup_insert_eq|].
  split; [rewrite lookup_insert_ne by done; by rewrite lookup_insert_eq|].
  split; [by rewrite lookup_insert_eq|].
  intros k Hk. unfold set_by_inst_info in Hk.
  rewrite !lookup_insert_ne; [reflexivity| | |]; intros <-; apply Hk; auto.
Qed.

(** Without data in the reply the fetch raises, and only the GET is left. *)
Lemma aura_inst_info_raises E w aura_api inst_id headers :
  (forall d, net E (requests w) <> Data d) ->
  exists e,
    aura_inst_info aura_api inst_id headers E w =
      (Raised e, sent (EGet (aura_api ++ inst_id) headers) w).
Proof.
  intros Hno. unfold aura_inst_info. unfold_prims. simpl.
  destruct (net E (requests w)) as [|d|t|]; simpl; try (by eexists).
  by destruct (Hno d).
Qed.

(** X9: [aura_inst_info] sends one GET to [aura_api + inst_id].  On a reply
    with data it returns a new object, distinct from every object there
    was, none of which it touches; the object holds what the API sent, except
    that ['aura_api'], ['headers'] and ['info_updated'] are set by the code,
    over anything the API sent under these names.  On any other reply it
    raises and the heap is as before. *)
Theorem aura_inst_info_spec E w aura_api inst_id headers :
  let '(o, w') := aura_inst_info aura_api inst_id headers E w in
  trace w' = (trace w ++ [EGet (aura_api ++ inst_id) headers])%list /\
  match net E (requests w) with
  | Data d =>
      exists l, o = Done l /\ heap w !! l = None /\
        (forall l', l' <> l -> heap w' !! l' = heap w !! l') /\
        field w' l "aura_api" = Some (VStr aura_api) /\
        field w' l "headers" = Some headers /\
        field w' l "info_updated" = Some (VStr (isoformat E (clock E (ticks w)))) /\
        (forall k, ~ set_by_inst_info k -> field w' l k = d !! k)
  | _ => (exists e, o = Raised e) /\ heap w' = heap w
  end.
Proof.
  destruct (net E (requests w)) as [|d|t|] eqn:Hn.
  2:{ rewrite (aura_inst_info_run E w aura_api inst_id headers d Hn).
      split; [reflexivity|]. exists (fresh (dom (heap w))).
      split; [reflexivity|]. split; [apply fresh_loc_unused|].
      split; [intros l' Hne; simpl; by rewrite lookup_insert_ne|].
      unfold field. simpl. rewrite !(lookup_insert_eq (heap w)).
      apply inst_info_lookups. }
  all: destruct (aura_inst_info_raises E w aura_api inst_id headers) as [e ->];
    [intros d; rewrite Hn; discriminate|];
    split; [reflexivity|]; split; [by eexists|reflexivity].
Qed.

(** X10: the object that [aura_inst_info] returns can be handed to
    [aura_inst_state] as soon as the data of the first reply has a string
    ['id']: the status check then sends its GET, with the same headers, to
    [aura_api] followed by that ['id'] (the id in the data, whatever id the
    first fetch was made with), writes the new status, and keeps every other
    field the API sent. *)
Theorem inst_info_then_inst_state E w aura_api inst_id headers d i d' s :
  net E (requests w) = Data d ->
  d !! "id" = Some (VStr i) ->
  net E (S (requests w)) = Data d' ->
  d' !! "status" = Some s ->
  exists l w1 w2,
    aura_inst_info aura_api inst_id headers E w = (Done l, w1) /\
    aura_inst_state l E w1 = (Done l, w2) /\
    trace w2 = (trace w ++ [EGet (aura_api ++ inst_id) headers;
                            EGet (aura_api ++ i) headers])%list /\
    field w2 l "status" = Some s /\
    (forall k, ~ set_by_inst_info k -> k <> "status" -> field w2 l k = d !! k) /\
    (forall l', l' <> l -> heap w2 !! l' = heap w !! l').
Proof.
  intros Hn Hid Hn' Hs.
  pose proof (aura_inst_info_run E w aura_api inst_id headers d Hn) as Hrun.
  set (l := fresh (dom (heap w))) in *.
  set (m := <["info_updated" := VStr (isoformat E (clock E (ticks w)))]>
              (<["headers" := headers]> (<["aura_api" := VStr aura_api]> d))) in *.
  match type of Hrun with _ = (_, ?x) => set (w1 := x) in * end.
  assert (Hl : heap w1 !! l = Some m) by apply lookup_insert_eq.
  assert (Ha : m !! "aura_api" = Some (VStr aura_api)).
  { unfold m. rewrite !lookup_insert_ne by done. apply lookup_insert_eq. }
  assert (Hi : m !! "id" = Some (VStr i)).
  { unfold m. by rewrite !lookup_insert_ne by done. }
  assert (Hh : m !! "headers" = Some headers).
  { unfold m. rewrite lookup_insert_ne by done. apply lookup_insert_eq. }
  exists l, w1, (refreshed E w1 l m (aura_api ++ i) headers s).
  split; [exact Hrun|].
  split; [by apply aura_inst_state_run with d'|].
  split; [simpl; by rewrite <- app_assoc|].
  split; [apply refreshed_status|]. split.
  - intros k Hk Hks.
    rewrite (refreshed_only_status E w1 l m (aura_api ++ i) headers s Hl l k).
    + unfold field. rewrite Hl. unfold m, set_by_inst_info in *.
      rewrite !lookup_insert_ne; [reflexivity| | |]; intros <-; apply Hk; auto.
    + right. split; [exact Hks|]. intros ->. apply Hk. unfold set_by_inst_info. auto.
  - intros l' Hne. simpl. by rewrite !lookup_insert_ne.
Qed.

(** ** Connecting *)

Lemma aura_set_request_header_run E w cid secret tok :
  aura_set_request_header cid secret tok E w =
    (match net E (requests w) with
     | Token t => Done (VDict (bearer_headers t))
     | NetErr => Raised RequestError
     | _ => Raised (KeyError "access_token")
     end,
     sent (EPost tok (Some token_data) (Some (cid, secret)) None) w).
Proof.
  unfold aura_set_request_header. unfold_prims. simpl.
  by destruct (net E (requests w)).
Qed.

(** What [aura_api_connect] comes to once the credentials are read and the
    token is there: the first fetch of the instance. *)
Lemma aura_api_connect_world E w path config sec api url tok cid secret t :
  fs E !! path = Some (Parsed config) ->
  sections config !! "AURA" = Some sec ->
  option_value config sec "AURA_API" = Some api ->
  option_value config sec "AURA_URL" = Some url ->
  option_value config sec "AURA_TOKEN_URL" = Some tok ->
  option_value config sec "AURA_API_CLIENT_ID" = Some cid ->
  option_value config sec "AURA_CLIENT_SECRET" = Some secret ->
  net E (requests w) = Token t ->
  aura_api_connect (Some path) E w =
    aura_inst_info api (aura_inst_id url) (VDict (bearer_headers t)) E
      (sent (EPost tok (Some token_data) (Some (cid, secret)) None)
         (log (EPrint (using_msg path ++ nl)) w)).
Proof.
  intros Hfs Hsec H1 H2 H3 H4 H5 Htok.
  pose proof (read_neo4j_properties_run E w path config sec api url tok cid secret
                Hfs Hsec H1 H2 H3 H4 H5) as Hr0.
  unfold aura_api_connect. rewrite (bind_run _ _ _ _ _ _ Hr0).
  unfold bind. rewrite aura_set_request_header_run. simpl. by rewrite Htok.
Qed.

(** X11: with a complete credentials file, a token in the first reply and
    the instance data in the second, [aura_api_connect] prints the "Using"
    line, posts the client id and secret to the token URL, and fetches the
    instance with a GET to AURA_API followed by the id cut out of AURA_URL,
    under the headers built from the token; the object it returns carries
    these headers and AURA_API besides what the API sent.  For an AURA_URL of
    the form [neo4j+s://<id>.databases.neo4j.io] the GET goes to AURA_API
    followed by [<id>]. *)
Theorem aura_api_connect_run E w path config sec api url tok cid secret t d :
  fs E !! path = Some (Parsed config) ->
  sections config !! "AURA" = Some sec ->
  option_value config sec "AURA_API" = Some api ->
  option_value config sec "AURA_URL" = Some url ->
  option_value config sec "AURA_TOKEN_URL" = Some tok ->
  option_value config sec "AURA_API_CLIENT_ID" = Some cid ->
  option_value config sec "AURA_CLIENT_SECRET" = Some secret ->
  net E (requests w) = Token t ->
  net E (S (requests w)) = Data d ->
  exists l w',
    aura_api_connect (Some path) E w = (Done l, w') /\
    trace w' =
      (trace w
       ++ [EPrint (using_msg path ++ nl);
           EPost tok (Some token_data) (Some (cid, secret)) None;
           EGet (api ++ aura_inst_id url) (VDict (bearer_headers t))])%list /\
    heap w !! l = None /\
    (forall l', l' <> l -> heap w' !! l' = heap w !! l') /\
    field w' l "headers" = Some (VDict (bearer_headers t)) /\
    field w' l "aura_api" = Some (VStr api) /\
    (forall k, ~ set_by_inst_info k -> field w' l k = d !! k) /\
    (forall id, url = "neo4j+s://" ++ id ++ ".databases.neo4j.io" ->
       contains id "." = false -> api ++ aura_inst_id url = api ++ id).
Proof.
  intros Hfs Hsec H1 H2 H3 H4 H5 Htok Hdata.
  rewrite (aura_api_connect_world E w path config sec api url tok cid secret t
             Hfs Hsec H1 H2 H3 H4 H5 Htok).
  set (w2 := sent (EPost tok (Some token_data) (Some (cid, secret)) None)
               (log (EPrint (using_msg path ++ nl)) w)).
  rewrite (aura_inst_info_run E w2 api (aura_inst_id url) (VDict (bearer_headers t)) d Hdata).
  destruct (inst_info_lookups (isoformat E (clock E (ticks w2))) api
              (VDict (bearer_headers t)) d) as (Ha & Hh & _ & Hkeys).
  eexists _, _. split; [reflexivity|].
  split; [simpl; by rewrite <- !app_assoc|].
  split; [apply (fresh_loc_unused w2)|].
  split; [intros l' Hne; simpl; by rewrite lookup_insert_ne|].
  unfold field. simpl. rewrite !(lookup_insert_eq (heap w)).
  split; [exact Hh|]. split; [exact Ha|]. split; [exact Hkeys|].
  intros id -> Hid.
  f_equal. exact (aura_inst_id_between "neo4j+s:" id "databases.neo4j.io" eq_refl Hid).
Qed.

(** Reading the credentials only ever prints. *)
Lemma read_neo4j_properties_world E w f o0 w0 :
  read_neo4j_properties f E w = (o0, w0) ->
  w0 = w \/ exists s, w0 = log (EPrint s) w.
Proof.
  unfold read_neo4j_properties. destruct (existing_file E f) as [[path file]|].
  - destruct file as [|config]; [intros [= _ <-]; by left|].
    unfold config_read, bind, ret. rewrite !config_get_aura.
    unfold ret, raise, print, emit.
    destruct (sections config !! "AURA") as [sec|]; [|intros [= _ <-]; by left].
    destruct (option_value config sec "AURA_API"); [|intros [= _ <-]; by left].
    destruct (option_value config sec "AURA_URL"); [|intros [= _ <-]; by left].
    destruct (option_value config sec "AURA_TOKEN_URL"); [|intros [= _ <-]; by left].
    destruct (option_value config sec "AURA_API_CLIENT_ID"); [|intros [= _ <-]; by left].
    destruct (option_value config sec "AURA_CLIENT_SECRET"); [|intros [= _ <-]; by left].
    intros [= _ <-]. right. by eexists.
  - intros [= _ <-]. right. by eexists.
Qed.

(** X12: [aura_api_connect] sends nothing unless the five credentials were
    read; when the token request brings no token, that POST is the only
    request it has sent; and whenever it does not return, it has created no
    object: the heap is as it was. *)
Theorem aura_api_connect_failure E w dot_ini_file :
  let '(o, w') := aura_api_connect dot_ini_file E w in
  ((forall l, o <> Done l) -> heap w' = heap w) /\
  (forall o0 w0,
     read_neo4j_properties dot_ini_file E w = (o0, w0) ->
     (forall p, o0 <> Done (Some p)) ->
     (forall l, o <> Done l) /\ requests_of (trace w') = requests_of (trace w)) /\
  (forall api url tok cid secret w0,
     read_neo4j_properties dot_ini_file E w
       = (Done (Some (api, url, tok, cid, secret)), w0) ->
     (forall t, net E (requests w) <> Token t) ->
     (forall l, o <> Done l) /\
     requests_of (trace w') =
       (requests_of (trace w)
        ++ [EPost tok (Some token_data) (Some (cid, secret)) None])%list).
Proof.
  destruct (aura_api_connect dot_ini_file E w) as [o w'] eqn:H.
  unfold aura_api_connect in H. unfold bind at 1 in H.
  destruct (read_neo4j_properties dot_ini_file E w) as [o0 w0] eqn:Hread.
  assert (Hw0 : heap w0 = heap w /\ requests w0 = requests w /\
                requests_of (trace w0) = requests_of (trace w)).
  { destruct (read_neo4j_properties_world E w dot_ini_file o0 w0 Hread) as [-> | [s ->]];
      [done|]. repeat split. by apply requests_of_log. }
  destruct Hw0 as (Hheap0 & Hreq0 & Htr0).
  destruct o0 as [[[[[[api url] tok] cid] secret]|]|e|].
  - (* the credentials were read *)
    unfold bind in H. rewrite aura_set_request_header_run in H.
    rewrite Hreq0 in H.
    set (w2 := sent (EPost tok (Some token_data) (Some (cid, secret)) None) w0) in *.
    assert (Htr2 : requests_of (trace w2) =
                   (requests_of (trace w)
                    ++ [EPost tok (Some token_data) (Some (cid, secret)) None])%list).
    { simpl. by rewrite requests_of_app, Htr0. }
    destruct (net E (requests w)) as [|d|t|] eqn:Hn.
    1,2,4: injection H as <- <-; split; [by intros _|]; split;
      [intros ? ? [= <- <-] Hno; by destruct (Hno (api, url, tok, cid, secret))|];
      intros ? ? ? ? ? ? [= <- <- <- <- <- <-] _; by split.
    split; [|split].
    + intros Hno. destruct (net E (requests w2)) as [|d|t'|] eqn:Hn2.
      2:{ rewrite (aura_inst_info_run E w2 _ _ _ d Hn2) in H.
          injection H as <- _. by destruct (Hno (fresh (dom (heap w2)))). }
      all: destruct (aura_inst_info_raises E w2 api (aura_inst_id url)
                       (VDict (bearer_headers t))) as [e He];
        [intros d; rewrite Hn2; discriminate|];
        rewrite He in H; injection H as _ <-; exact Hheap0.
    + intros ? ? [= <- <-] Hno. by destruct (Hno (api, url, tok, cid, secret)).
    + intros ? ? ? ? ? ? _ Hno. by destruct (Hno t).
  - (* None came back: it cannot be unpacked *)
    injection H as <- <-. split; [by intros _|]. split.
    + intros ? ? [= <- <-] _. by split.
    + intros ? ? ? ? ? ? [=].
  - injection H as <- <-. split; [by intros _|]. split.
    + intros ? ? [= <- <-] _. by split.
    + intros ? ? ? ? ? ? [=].
  - injection H as <- <-. split; [by intros _|]. split.
    + intros ? ? [= <- <-] _. by split.
    + intros ? ? ? ? ? ? [=].
Qed.

(** ** Calls one after another *)

(** A request that finds the target already there: one GET, one line. *)
Lemma request_when_already E l api id h name new_state fuel w :
  field w l "aura_api" = Some (VStr api) ->
  field w l "id" = Some (VStr id) ->
  field w l "headers" = Some h ->
  field w l "name" = Some name ->
  (exists d, net E (requests w) = Data d /\ d !! "status" = Some new_state) ->
  exists w',
    aura_request_state_change fuel new_state l E w = (Done tt, w') /\
    trace w' = (trace w ++ [EGet (api ++ id) h;
                            EPrint (already_msg E name (VStr id) new_state ++ nl)])%list.
Proof.
  intros Ha Hi Hh Hname [d [Hn Hs]].
  destruct (aura_inst_state_fields E w l api id h d new_state Ha Hi Hh Hn Hs)
    as (w1 & Hrun & Ht & _ & _ & Hst & Hfr).
  rewrite (aura_request_state_change_after_refresh E fuel _ l w w1 _ Hrun Hst).
  pose proof (after_refresh_already E fuel new_state l w1 Hst) as Hpost.
  destruct (after_refresh fuel new_state new_state l E w1) as [o w'].
  destruct Hpost as (_ & _ & _ & Hdone).
  destruct (Hdone name (VStr id)) as [-> Htr].
  - by rewrite Hfr by (right; done).
  - by rewrite Hfr by (right; done).
  - exists w'. split; [reflexivity|]. rewrite Htr, Ht. by rewrite <- app_assoc.
Qed.

(** X13: asking again is harmless.  After a state-change request that
    returned, whatever it did, a second request for the same target, made
    while the API reports that target, sends its refresh GET and no POST,
    prints that the instance is already in that state, and returns. *)
Theorem second_request_sends_no_post E l api id h name new_state fuel fuel' w w1 :
  field w l "aura_api" = Some (VStr api) ->
  field w l "id" = Some (VStr id) ->
  field w l "headers" = Some h ->
  field w l "name" = Some name ->
  aura_request_state_change fuel new_state l E w = (Done tt, w1) ->
  (exists d, net E (requests w1) = Data d /\ d !! "status" = Some new_state) ->
  exists w2,
    aura_request_state_change fuel' new_state l E w1 = (Done tt, w2) /\
    trace w2 = (trace w1 ++ [EGet (api ++ id) h;
                             EPrint (already_msg E name (VStr id) new_state ++ nl)])%list /\
    posts_of (trace w2) = posts_of (trace w1).
Proof.
  intros Ha Hi Hh Hname Hfirst Hreply.
  destruct (frame_within_request l new_state fuel E w (Done tt) w1 Hfirst) as [Hfr _].
  destruct (request_when_already E l api id h name new_state fuel' w1)
    as (w2 & Hrun & Htr); try assumption; try (by rewrite Hfr by (right; done)).
  exists w2. split; [exact Hrun|]. split; [exact Htr|].
  rewrite Htr, posts_of_app. simpl. apply app_nil_r.
Qed.

(** A supported transition that reaches its target at poll [k + 1]. *)
Lemma request_transition_reaches E l api id h name cur new_state inst_action k fuel w :
  (cur = "paused" /\ new_state = "running" /\ inst_action = "resume") \/
  (cur = "running" /\ new_state = "paused" /\ inst_action = "pause") ->
  field w l "aura_api" = Some (VStr api) ->
  field w l "id" = Some (VStr id) ->
  field w l "headers" = Some h ->
  field w l "name" = Some name ->
  (exists d, net E (requests w) = Data d /\ d !! "status" = Some (VStr cur)) ->
  net E (S (requests w)) <> NetErr ->
  (k < fuel)%nat ->
  (forall i, (i < k)%nat -> exists d s,
      net E (S (S (requests w)) + i)%nat = Data d /\ d !! "status" = Some s
      /\ s <> VStr new_state) ->
  (exists d, net E (S (S (requests w)) + k)%nat = Data d
             /\ d !! "status" = Some (VStr new_state)) ->
  exists w',
    aura_request_state_change fuel (VStr new_state) l E w = (Done tt, w') /\
    requests_of (trace w') =
      (requests_of (trace w)
       ++ [EGet (api ++ id) h;
           EPost (api ++ id ++ "/" ++ inst_action) None None (Some h)]
       ++ replicate (S k) (EGet (api ++ id) h))%list /\
    field w' l "status" = Some (VStr new_state).
Proof.
  intros Htr Ha Hi Hh Hname [d [Hn Hs]] Hpost Hlt Hbefore Hat.
  destruct (aura_inst_state_fields E w l api id h d (VStr cur) Ha Hi Hh Hn Hs)
    as (w1 & Hrun & Ht & Hr & _ & Hst & Hfr).
  rewrite (aura_request_state_change_after_refresh E fuel _ l w w1 _ Hrun Hst).
  rewrite (after_refresh_transition fuel cur new_state inst_action l Htr).
  destruct (aura_change_state_reaches E (VStr new_state) inst_action l api id h name
              (VStr cur) k fuel w1) as (w' & Hrun' & Hreq & Hst' & _);
    try assumption; try (by rewrite Hfr by (right; done)); try (by rewrite Hr).
  exists w'. split; [exact Hrun'|]. split; [|exact Hst'].
  rewrite Hreq, Ht, requests_of_app. simpl. by rewrite <- !app_assoc.
Qed.

(** X14: connecting and then asking for a change work together.  The info
    that [aura_api_connect] returns has all that [aura_request_state_change]
    reads once the API data carries a string ['id'] and a ['name'].  For a
    supported transition the requests of the two calls are then: the token
    POST, the first fetch, the refresh, one POST to AURA_API + id + the
    action, and the polls, every request to the API under the headers built
    from the token, and with the id the API sent. *)
Theorem connect_then_change
    E w path config sec api url tok cid secret t d i name
    cur new_state inst_action k fuel :
  fs E !! path = Some (Parsed config) ->
  sections config !! "AURA" = Some sec ->
  option_value config sec "AURA_API" = Some api ->
  option_value config sec "AURA_URL" = Some url ->
  option_value config sec "AURA_TOKEN_URL" = Some tok ->
  option_value config sec "AURA_API_CLIENT_ID" = Some cid ->
  option_value config sec "AURA_CLIENT_SECRET" = Some secret ->
  net E (requests w) = Token t ->
  net E (1 + requests w)%nat = Data d ->
  d !! "id" = Some (VStr i) ->
  d !! "name" = Some name ->
  (cur = "paused" /\ new_state = "running" /\ inst_action = "resume") \/
  (cur = "running" /\ new_state = "paused" /\ inst_action = "pause") ->
  (exists d1, net E (2 + requests w)%nat = Data d1 /\ d1 !! "status" = Some (VStr cur)) ->
  net E (3 + requests w)%nat <> NetErr ->
  (k < fuel)%nat ->
  (forall j, (j < k)%nat -> exists d2 s,
      net E (4 + requests w + j)%nat = Data d2 /\ d2 !! "status" = Some s
      /\ s <> VStr new_state) ->
  (exists d2, net E (4 + requests w + k)%nat = Data d2
              /\ d2 !! "status" = Some (VStr new_state)) ->
  let h := VDict (bearer_headers t) in
  exists l w1 w2,
    aura_api_connect (Some path) E w = (Done l, w1) /\
    aura_request_state_change fuel (VStr new_state) l E w1 = (Done tt, w2) /\
    requests_of (trace w2) =
      (requests_of (trace w)
       ++ [EPost tok (Some token_data) (Some (cid, secret)) None;
           EGet (api ++ aura_inst_id url) h;
           EGet (api ++ i) h;
           EPost (api ++ i ++ "/" ++ inst_action) None None (Some h)]
       ++ replicate (S k) (EGet (api ++ i) h))%list /\
    field w2 l "status" = Some (VStr new_state).
Proof.
  intros Hfs Hsec H1 H2 H3 H4 H5 Htok Hdata Hid Hname Htr Hcur Hpost Hlt Hbefore Hat. cbv zeta.
  set (h := VDict (bearer_headers t)).
  pose proof (aura_api_connect_world E w path config sec api url tok cid secret t
                Hfs Hsec H1 H2 H3 H4 H5 Htok) as Hconn.
  fold h in Hconn.
  set (w0 := sent (EPost tok (Some token_data) (Some (cid, secret)) None)
               (log (EPrint (using_msg path ++ nl)) w)) in *.
  rewrite (aura_inst_info_run E w0 api (aura_inst_id url) h d Hdata) in Hconn.
  set (l := fresh (dom (heap w0))) in *.
  match type of Hconn with _ = (_, ?x) => set (w1 := x) in * end.
  set (m := <["info_updated" := VStr (isoformat E (clock E (ticks w0)))]>
              (<["headers" := h]> (<["aura_api" := VStr api]> d))).
  assert (Hf : forall key, field w1 l key = m !! key).
  { intros key. unfold field, w1. simpl. by rewrite lookup_insert_eq. }
  destruct (request_transition_reaches E l api i h name cur new_state inst_action
              k fuel w1) as (w2 & Hrun & Hreq & Hst); try assumption.
  - rewrite Hf. unfold m. rewrite !lookup_insert_ne by done. apply lookup_insert_eq.
  - rewrite Hf. unfold m. by rewrite !lookup_insert_ne by done.
  - rewrite Hf. unfold m. rewrite lookup_insert_ne by done. apply lookup_insert_eq.
  - rewrite Hf. unfold m. by rewrite !lookup_insert_ne by done.
  - exists l, w1, w2. split; [exact Hconn|]. split; [exact Hrun|]. split; [|exact Hst].
    rewrite Hreq. simpl. rewrite !requests_of_app. simpl.
    rewrite !app_nil_r. by rewrite <- !app_assoc.
Qed.

(** ** Concrete runs of the further properties *)

Lemma aura_change_state_trace_witness :
  let E := ex_env [Other; status_reply "pausing"] (status_reply "paused") in
  let w := ex_world "running" in
  exists w',
    aura_change_state 5 (VStr "paused") "pause" 0%nat E w = (Done tt, w') /\
    slept (trace w') = 5 /\ requests w' = 3%nat /\
    trace w' =
      [EPrint (requesting_msg E 7000000 (VStr "db") (VStr "2bxxxxxx") (VStr "running")
                 (VStr "paused"));
       EPost (ex_api ++ "2bxxxxxx" ++ "/" ++ "pause") None None (Some ex_headers);
       EGet (ex_api ++ "2bxxxxxx") ex_headers; EPrint "."; ESleep 5;
       EGet (ex_api ++ "2bxxxxxx") ex_headers;
       EPrint (changed_msg E 28000000 (VStr "db") (VStr "2bxxxxxx") (VStr "paused") ++ nl);
       EPrint ("Elapsed time to change state 00:00:21" ++ nl)].
Proof.
  destruct (aura_change_state_trace
              (ex_env [Other; status_reply "pausing"] (status_reply "paused"))
              (VStr "paused") "pause" 0%nat ex_api "2bxxxxxx" ex_headers (VStr "db")
              (VStr "running") 1%nat 5%nat (ex_world "running"))
    as (w' & Hrun & Htr & Hs & Hr); try reflexivity.
  - lia.
  - discriminate.
  - intros i Hi. assert (i = 0%nat) as -> by lia.
    exists {[ "status" := VStr "pausing" ]}, (VStr "pausing").
    split; [reflexivity|]. split; [reflexivity|discriminate].
  - exists {[ "status" := VStr "paused" ]}. split; reflexivity.
  - exists w'. split; [exact Hrun|]. split; [exact Hs|]. split; [exact Hr|]. exact Htr.
Defined.

Lemma aura_change_state_failure_witness :
  let E := ex_env [NetErr] Other in
  let w := ex_world "running" in
  let w_noname := {| heap := {[ 0%nat := delete "name" (ex_info "running") ]};
                     requests := 0; ticks := 0; trace := [] |} in
  (exists e w',
     aura_change_state 5 (VStr "paused") "pause" 0%nat E w_noname = (Raised e, w') /\
     requests_of (trace w') = [] /\ requests w' = 0%nat) /\
  (exists w',
     aura_change_state 5 (VStr "paused") "pause" 0%nat E w = (Raised RequestError, w') /\
     requests_of (trace w') =
       [EPost (ex_api ++ "2bxxxxxx" ++ "/" ++ "pause") None None (Some ex_headers)]).
Proof.
  split.
  - destruct (proj1 (aura_change_state_failure (ex_env [NetErr] Other) 5 (VStr "paused")
               "pause" 0%nat (delete "name" (ex_info "running"))
               {| heap := {[ 0%nat := delete "name" (ex_info "running") ]};
                  requests := 0; ticks := 0; trace := [] |}
               (lookup_singleton_eq 0%nat _))
               "name" (or_introl eq_refl) ltac:(by vm_compute))
      as (e & w' & Hrun & Hreq & Hn & _).
    by exists e, w'.
  - destruct (proj2 (aura_change_state_failure (ex_env [NetErr] Other) 5 (VStr "paused")
               "pause" 0%nat (ex_info "running") (ex_world "running") eq_refl)
               ex_api "2bxxxxxx" ex_headers (VStr "db") (VStr "running")
               eq_refl eq_refl eq_refl eq_refl eq_refl eq_refl)
      as (w' & Hrun & Hreq & _).
    by exists w'.
Defined.

Lemma read_neo4j_properties_existing_witness :
  let w := ex_world "running" in
  (exists p,
     fst (read_neo4j_properties (Some "neo4jConfig.ini")
            (ex_env_file (Parsed ex_config) [] Other) w) = Done (Some p)) /\
  read_neo4j_properties (Some "neo4jConfig.ini")
    (ex_env_file (Parsed {| sections := ∅; defaults := ∅ |}) [] Other) w
    = (Raised (KeyError "AURA"), w) /\
  read_neo4j_properties (Some "neo4jConfig.ini") (ex_env_file Malformed [] Other) w
    = (Raised ConfigError, w).
Proof.
  split; [|split].
  - pose proof (read_neo4j_properties_existing (ex_env_file (Parsed ex_config) [] Other)
                  (ex_world "running") "neo4jConfig.ini" (Parsed ex_config) eq_refl) as H.
    destruct (read_neo4j_properties _ _ _) as [o w']. vm_compute in H.
    destruct H as [(api & url & tok & cid & secret & _ & _ & _ & _ & _ & ->) _].
    by eexists.
  - pose proof (read_neo4j_properties_existing
                  (ex_env_file (Parsed {| sections := ∅; defaults := ∅ |}) [] Other)
                  (ex_world "running") "neo4jConfig.ini"
                  (Parsed {| sections := ∅; defaults := ∅ |}) eq_refl) as H.
    destruct (read_neo4j_properties _ _ _) as [o w']. vm_compute in H.
    by destruct H as [-> ->].
  - pose proof (read_neo4j_properties_existing (ex_env_file Malformed [] Other)
                  (ex_world "running") "neo4jConfig.ini" Malformed eq_refl) as H.
    destruct (read_neo4j_properties _ _ _) as [o w'].
    by destruct H as [-> ->].
Defined.

Lemma inst_info_then_inst_state_witness :
  let E := ex_env [Data ex_data; status_reply "paused"] Other in
  let w := ex_world "running" in
  exists l w1 w2,
    aura_inst_info ex_api "2bxxxxxx" ex_headers E w = (Done l, w1) /\
    aura_inst_state l E w1 = (Done l, w2) /\
    field w2 l "status" = Some (VStr "paused") /\
    field w2 l "name" = Some (VStr "db").
Proof.
  destruct (inst_info_then_inst_state
              (ex_env [Data ex_data; status_reply "paused"] Other) (ex_world "running")
              ex_api "2bxxxxxx" ex_headers ex_data "2bxxxxxx"
              {[ "status" := VStr "paused" ]} (VStr "paused")
              eq_refl eq_refl eq_refl eq_refl)
    as (l & w1 & w2 & Hinfo & Hstate & _ & Hst & Hkeys & _).
  exists l, w1, w2. split; [exact Hinfo|]. split; [exact Hstate|]. split; [exact Hst|].
  rewrite Hkeys; [reflexivity| |discriminate].
  intros [H | [H | H]]; discriminate H.
Defined.

Lemma aura_api_connect_run_witness :
  let E := ex_env_file (Parsed ex_config) [Token "t0k3n"; Data ex_data] Other in
  let w := ex_world "running" in
  exists l w',
    aura_api_connect (Some "neo4jConfig.ini") E w = (Done l, w') /\
    trace w' =
      [EPrint (using_msg "neo4jConfig.ini" ++ nl);
       EPost "https://api.neo4j.io/oauth/token" (Some token_data)
         (Some ("client", "s3cr3t")) None;
       EGet (ex_api ++ "2bxxxxxx") (VDict (bearer_headers "t0k3n"))] /\
    field w' l "headers" = Some (VDict (bearer_headers "t0k3n")).
Proof.
  destruct (aura_api_connect_run
              (ex_env_file (Parsed ex_config) [Token "t0k3n"; Data ex_data] Other)
              (ex_world "running") "neo4jConfig.ini" ex_config
              ex_section
              ex_api "neo4j+s://2bxxxxxx.databases.neo4j.io"
              "https://api.neo4j.io/oauth/token" "client" "s3cr3t" "t0k3n" ex_data
              eq_refl eq_refl eq_refl eq_refl eq_refl eq_refl eq_refl eq_refl eq_refl)
    as (l & w' & Hrun & Htr & _ & _ & Hh & _).
  exists l, w'. split; [exact Hrun|]. split; [exact Htr|exact Hh].
Defined.

Lemma second_request_sends_no_post_witness :
  let E := ex_env [status_reply "running"; Other; status_reply "paused"]
             (status_reply "paused") in
  let w1 := snd (aura_request_state_change 5 (VStr "paused") 0%nat E (ex_world "running")) in
  exists w2,
    aura_request_state_change 5 (VStr "paused") 0%nat E w1 = (Done tt, w2) /\
    posts_of (trace w2) = posts_of (trace w1).
Proof.
  destruct (second_request_sends_no_post
              (ex_env [status_reply "running"; Other; status_reply "paused"]
                 (status_reply "paused"))
              0%nat ex_api "2bxxxxxx" ex_headers (VStr "db") (VStr "paused") 5%nat 5%nat
              (ex_world "running")
              (snd (aura_request_state_change 5 (VStr "paused") 0%nat
                      (ex_env [status_reply "running"; Other; status_reply "paused"]
                         (status_reply "paused")) (ex_world "running")))
              eq_refl eq_refl eq_refl eq_refl)
    as (w2 & Hrun & _ & Hposts).
  - by vm_compute.
  - exists {[ "status" := VStr "paused" ]}. split; by vm_compute.
  - exists w2. by split.
Defined.

Lemma connect_then_change_witness :
  let E := ex_env_file (Parsed ex_config)
             [Token "t0k3n"; Data ex_data; status_reply "running"; Other;
              status_reply "pausing"] (status_reply "paused") in
  let w := {| heap := ∅; requests := 0; ticks := 0; trace := [] |} in
  let h := VDict (bearer_headers "t0k3n") in
  exists l w1 w2,
    aura_api_connect (Some "neo4jConfig.ini") E w = (Done l, w1) /\
    aura_request_state_change 5 (VStr "paused") l E w1 = (Done tt, w2) /\
    requests_of (trace w2) =
      [EPost "https://api.neo4j.io/oauth/token" (Some token_data)
         (Some ("client", "s3cr3t")) None;
       EGet (ex_api ++ "2bxxxxxx") h; EGet (ex_api ++ "2bxxxxxx") h;
       EPost (ex_api ++ "2bxxxxxx" ++ "/" ++ "pause") None None (Some h);
       EGet (ex_api ++ "2bxxxxxx") h; EGet (ex_api ++ "2bxxxxxx") h].
Proof.
  destruct (connect_then_change
              (ex_env_file (Parsed ex_config)
                 [Token "t0k3n"; Data ex_data; status_reply "running"; Other;
                  status_reply "pausing"] (status_reply "paused"))
              {| heap := ∅; requests := 0; ticks := 0; trace := [] |}
              "neo4jConfig.ini" ex_config
              ex_section
              ex_api "neo4j+s://2bxxxxxx.databases.neo4j.io"
              "https://api.neo4j.io/oauth/token" "client" "s3cr3t" "t0k3n" ex_data
              "2bxxxxxx" (VStr "db") "running" "paused" "pause" 1%nat 5%nat)
    as (l & w1 & w2 & Hconn & Hrun & Hreq & _); try reflexivity.
  - right. by repeat split.
  - exists {[ "status" := VStr "running" ]}. split; reflexivity.
  - discriminate.
  - lia.
  - intros j Hj. assert (j = 0%nat) as -> by lia.
    exists {[ "status" := VStr "pausing" ]}, (VStr "pausing").
    split; [reflexivity|]. split; [reflexivity|discriminate].
  - exists {[ "status" := VStr "paused" ]}. split; reflexivity.
  - exists l, w1, w2. split; [exact Hconn|]. split; [exact Hrun|]. exact Hreq.
Defined.
